(** * quizlanWeb: the client-side controller of a timed online quiz

    A shallow embedding of [static/app.js].  The script drives two pages:
    the landing page (access code, class and name selection, join) and the
    quiz page (question form, countdown, submission, focus-loss reports).

    JavaScript runs the handlers of a page one at a time on a single thread;
    an [async] function runs until its next [await], and the rest of it runs
    when the awaited promise settles.  Each page is therefore modelled as a
    record of the state the script reads and writes (script variables and
    the DOM properties it touches), a type of events (a user action, a timer
    that fires, a network call that settles) and a handler function that
    runs one event to its next suspension point.  The rest of an [async]
    function after an [await] is a function of its own ([..._resume]), run
    when the event loop delivers the settlement of the call; the page
    records which calls are in flight.

    Strings are [string] (a list of bytes).  The script only inspects the
    ASCII characters [_], [[] and []], and a byte below 128 never occurs
    inside the encoding of another character, so the byte-wise operations
    below agree with the script's operations on UTF-16 strings. *)

From Stdlib Require Import ZArith Ascii String List Bool Lia Sorted.
From stdpp Require Import base tactics option list strings gmap pretty.

Local Open Scope string_scope.

(** ** JavaScript primitives used by the script *)

Module JS.

(** [s.slice(n)]: [s] without its first [n] characters. *)
Fixpoint drop_chars (n : nat) (s : string) : string :=
  match n, s with
  | O, _ => s
  | S _, EmptyString => EmptyString
  | S m, String _ t => drop_chars m t
  end.

(** [s.startsWith(p)], also the attribute selector [[name^="p"]]. *)
Definition startsWith (p s : string) : bool := String.prefix p s.

(** [s.includes(p)]. *)
Fixpoint includes (p s : string) : bool :=
  startsWith p s ||
  match s with
  | EmptyString => false
  | String _ t => includes p t
  end.

(** [s.replace(pat, rep)] with a string pattern: only the first occurrence
    of [pat] is replaced. *)
Fixpoint replace (pat rep s : string) : string :=
  if startsWith pat s then rep +:+ drop_chars (String.length pat) s
  else match s with
       | EmptyString => EmptyString
       | String c t => String c (replace pat rep t)
       end.

(** [s.split(sep)] for a one-character separator. *)
Fixpoint split (sep : ascii) (s : string) : list string :=
  match s with
  | EmptyString => [EmptyString]
  | String c t =>
      if Ascii.eqb c sep then EmptyString :: split sep t
      else match split sep t with
           | p :: ps => String c p :: ps
           | [] => [String c EmptyString]
           end
  end.

(** A value used as a property key: [undefined] becomes ["undefined"]. *)
Definition prop_key (v : option string) : string :=
  match v with
  | Some k => k
  | None => "undefined"
  end.

(** [v || d] for a string-or-undefined [v]: the empty string is falsy. *)
Definition or_else (v : option string) (d : string) : string :=
  match v with
  | Some EmptyString | None => d
  | Some s => s
  end.

(** [!s] for a string. *)
Definition falsy (s : string) : bool := String.eqb s EmptyString.

(** Whether a string-or-undefined value is truthy. *)
Definition truthy (v : option string) : bool :=
  match v with
  | Some (String _ _) => true
  | Some EmptyString | None => false
  end.

(** The double quote character. *)
Definition dquote : string := String "034"%char EmptyString.

(** [s.trim()]: white space removed at both ends (the ASCII white space;
    the other Unicode spaces are left alone). *)
Definition is_space (c : ascii) : bool :=
  match c with
  | " "%char | "009"%char | "010"%char | "011"%char | "012"%char
  | "013"%char => true
  | _ => false
  end.

Fixpoint trimStart (s : string) : string :=
  match s with
  | String c t => if is_space c then trimStart t else s
  | EmptyString => EmptyString
  end.

Fixpoint trimEnd (s : string) : string :=
  match s with
  | EmptyString => EmptyString
  | String c t =>
      match trimEnd t with
      | EmptyString => if is_space c then EmptyString else String c EmptyString
      | t' => String c t'
      end
  end.

Definition trim (s : string) : string := trimEnd (trimStart s).

(** [s.padStart(n, "0")]. *)
Fixpoint zeros (n : nat) : string :=
  match n with
  | O => EmptyString
  | S m => String "0" (zeros m)
  end.

Definition padStart0 (n : nat) (s : string) : string :=
  zeros (n - String.length s) +:+ s.

(** [n.toString()] for an integer. *)
Definition toString (n : Z) : string := pretty n.

(** A plain object used as a map from strings: its own keys in insertion
    order.  Assigning to an existing key keeps the key's place. *)
Definition object (V : Type) : Type := list (string * V).

Fixpoint get {V} (k : string) (o : object V) : option V :=
  match o with
  | [] => None
  | (k', v) :: rest => if String.eqb k' k then Some v else get k rest
  end.

Fixpoint set {V} (k : string) (v : V) (o : object V) : object V :=
  match o with
  | [] => [(k, v)]
  | (k', v') :: rest =>
      if String.eqb k' k then (k', v) :: rest else (k', v') :: set k v rest
  end.

(** [Object.keys(o)] (no key of the script is an integer index, so the order
    is the insertion order). *)
Definition keys {V} (o : object V) : list string := map fst o.

End JS.

(** ** The question set and the answer form *)

Record Choice := {
  label : string;
  choice_text : string;
  choice_image : option string
}.

Record Question := {
  id : string;
  text : string;
  image : option string;
  multi : bool;
  options : list Choice
}.

Inductive InputType := checkbox | radio.

(** An [<input>] of the answer form: the properties [loadQuiz] sets, and
    [checked], which the student changes. *)
Record Input := {
  type : InputType;
  name : string;
  value : string;
  checked : bool
}.

(** [input.name = 'q_' + q.id + (q.multi ? '[]' : '')] *)
Definition input_name (q : Question) : string :=
  "q_" +:+ id q +:+ (if multi q then "[]" else EmptyString).

(** The input that [loadQuiz] creates for option [opt] of question [q]. *)
Definition make_input (q : Question) (opt : Choice) : Input :=
  {| type := if multi q then checkbox else radio;
     name := input_name q;
     value := label opt;
     checked := false |}.

(** The inputs appended to the form by [data.questions.forEach], in document
    order. *)
Definition build_inputs (qs : list Question) : list Input :=
  flat_map (fun q => map (make_input q) (options q)) qs.

(** [document.querySelectorAll('input[name^="q_"]')] *)
Definition answer_inputs (doc : list Input) : list Input :=
  List.filter (fun inp => JS.startsWith "q_" (name inp)) doc.

(** The body of [inputs.forEach(inp => ...)] in [submitQuiz]. *)
Definition collect_input (answers : JS.object (list string)) (inp : Input)
  : JS.object (list string) :=
  let name := JS.replace "[]" EmptyString (name inp) in
  let answers :=
    match JS.get name answers with
    | None => JS.set name [] answers
    | Some _ => answers
    end in
  if checked inp then
    match JS.get name answers with
    | Some vs => JS.set name (vs ++ [value inp])%list answers
    | None => answers
    end
  else answers.

Definition collect_answers (inputs : list Input) : JS.object (list string) :=
  fold_left collect_input inputs [].

(** [k.split('_')[1]] *)
Definition qid_of_key (k : string) : string :=
  JS.prop_key (JS.split "_" k !! 1%nat).

(** The body of [Object.keys(answers).forEach(k => ...)]. *)
Definition format_key (answers : JS.object (list string))
    (formatted : gmap string (list string)) (k : string)
  : gmap string (list string) :=
  match JS.get k answers with
  | Some vs => <[qid_of_key k := vs]> formatted
  | None => formatted
  end.

Definition format_answers (answers : JS.object (list string))
  : gmap string (list string) :=
  fold_left (format_key answers) (JS.keys answers) ∅.

(** The [answers] member of the body sent by [submitQuiz]. *)
Definition serialized_answers (doc : list Input) : gmap string (list string) :=
  format_answers (collect_answers (answer_inputs doc)).

(** ** Network calls *)

(** A request of the script, by endpoint, with the members of its JSON
    body. *)
Inductive Request :=
| GetClasses
| PostRegister (name class : string)
| PostCheckCode (access_code : string)
| PostJoin (access_code : string)
| GetQuiz (quiz_id : string)
| PostSubmit (quiz_id : string) (answers : gmap string (list string))
| PostLogEvent (quiz_id student event : string).

(** How an awaited [fetch(...)] followed by [res.json()] settles: with the
    decoded body, or rejected (the network failed or the body was not
    JSON). *)
Inductive Settled (A : Type) :=
| Fulfilled (data : A)
| Rejected.
Arguments Fulfilled {A} data.
Arguments Rejected {A}.

(** The bodies the script reads.  A member the script reads with [||] or
    prints is optional. *)
Record Reply := {
  ok : bool;
  error : option string;
  quiz_id : option string
}.

Record SubmitReply := {
  submit_ok : bool;
  score : option Z;
  total : option Z;
  submit_error : option string
}.

Record QuizData := {
  data_error : option string;
  questions : option (list Question)
}.

(** A value interpolated into a template literal. *)
Definition show_number (v : option Z) : string :=
  match v with
  | Some n => JS.toString n
  | None => "undefined"
  end.

Definition show_string (v : option string) : string :=
  match v with
  | Some s => s
  | None => "undefined"
  end.

(** ** The quiz page *)

(** The values the hosting page defines before the script runs. *)
Record Globals := {
  QUIZ_ID : string;
  DURATION : Z;
  STUDENT_NAME : string
}.

Module Quiz.

(** The banner element [#anticheat-banner]. *)
Record Banner := {
  html : string;
  shown : bool
}.

Record Page := {
  (* variables of the script and properties of the document *)
  remaining : Z;                    (* [let remaining] *)
  timer_text : string;              (* [timerEl.textContent] *)
  form : list Input;                (* the inputs of the document *)
  submit_disabled : bool;           (* [submitBtn.disabled] *)
  status : string * string;         (* [#submitStatus]: text and class *)
  modals : nat;                     (* result modals shown *)
  banner : option Banner;           (* [None]: the page has no banner *)
  (* the event loop *)
  tick_timers : nat;                (* pending [setTimeout(tick, 1000)] *)
  banner_timers : nat;              (* pending [setTimeout(..., 3000)] *)
  loading : nat;                    (* [loadQuiz] awaiting its fetch *)
  submitting : nat;                 (* [submitQuiz] calls awaiting theirs *)
  logging : nat;                    (* [/log_event] calls not yet settled *)
  (* what the page did *)
  sent : list Request;              (* requests issued, oldest first *)
  dialogs : nat;                    (* [confirm] dialogs shown *)
  uncaught : nat                    (* uncaught errors and rejections *)
}.

Definition with_remaining (v : Z) (p : Page) : Page :=
  {| remaining := v; timer_text := timer_text p; form := form p;
     submit_disabled := submit_disabled p; status := status p;
     modals := modals p; banner := banner p; tick_timers := tick_timers p;
     banner_timers := banner_timers p; loading := loading p;
     submitting := submitting p; logging := logging p; sent := sent p;
     dialogs := dialogs p; uncaught := uncaught p |}.

Definition with_timer_text (v : string) (p : Page) : Page :=
  {| remaining := remaining p; timer_text := v; form := form p;
     submit_disabled := submit_disabled p; status := status p;
     modals := modals p; banner := banner p; tick_timers := tick_timers p;
     banner_timers := banner_timers p; loading := loading p;
     submitting := submitting p; logging := logging p; sent := sent p;
     dialogs := dialogs p; uncaught := uncaught p |}.

Definition with_form (v : list Input) (p : Page) : Page :=
  {| remaining := remaining p; timer_text := timer_text p; form := v;
     submit_disabled := submit_disabled p; status := status p;
     modals := modals p; banner := banner p; tick_timers := tick_timers p;
     banner_timers := banner_timers p; loading := loading p;
     submitting := submitting p; logging := logging p; sent := sent p;
     dialogs := dialogs p; uncaught := uncaught p |}.

Definition with_submit_disabled (v : bool) (p : Page) : Page :=
  {| remaining := remaining p; timer_text := timer_text p; form := form p;
     submit_disabled := v; status := status p;
     modals := modals p; banner := banner p; tick_timers := tick_timers p;
     banner_timers := banner_timers p; loading := loading p;
     submitting := submitting p; logging := logging p; sent := sent p;
     dialogs := dialogs p; uncaught := uncaught p |}.

Definition with_status (v : string * string) (p : Page) : Page :=
  {| remaining := remaining p; timer_text := timer_text p; form := form p;
     submit_disabled := submit_disabled p; status := v;
     modals := modals p; banner := banner p; tick_timers := tick_timers p;
     banner_timers := banner_timers p; loading := loading p;
     submitting := submitting p; logging := logging p; sent := sent p;
     dialogs := dialogs p; uncaught := uncaught p |}.

Definition with_modals (v : nat) (p : Page) : Page :=
  {| remaining := remaining p; timer_text := timer_text p; form := form p;
     submit_disabled := submit_disabled p; status := status p;
     modals := v; banner := banner p; tick_timers := tick_timers p;
     banner_timers := banner_timers p; loading := loading p;
     submitting := submitting p; logging := logging p; sent := sent p;
     dialogs := dialogs p; uncaught := uncaught p |}.

Definition with_banner (v : option Banner) (p : Page) : Page :=
  {| remaining := remaining p; timer_text := timer_text p; form := form p;
     submit_disabled := submit_disabled p; status := status p;
     modals := modals p; banner := v; tick_timers := tick_timers p;
     banner_timers := banner_timers p; loading := loading p;
     submitting := submitting p; logging := logging p; sent := sent p;
     dialogs := dialogs p; uncaught := uncaught p |}.

Definition with_tick_timers (v : nat) (p : Page) : Page :=
  {| remaining := remaining p; timer_text := timer_text p; form := form p;
     submit_disabled := submit_disabled p; status := status p;
     modals := modals p; banner := banner p; tick_timers := v;
     banner_timers := banner_timers p; loading := loading p;
     submitting := submitting p; logging := logging p; sent := sent p;
     dialogs := dialogs p; uncaught := uncaught p |}.

Definition with_banner_timers (v : nat) (p : Page) : Page :=
  {| remaining := remaining p; timer_text := timer_text p; form := form p;
     submit_disabled := submit_disabled p; status := status p;
     modals := modals p; banner := banner p; tick_timers := tick_timers p;
     banner_timers := v; loading := loading p;
     submitting := submitting p; logging := logging p; sent := sent p;
     dialogs := dialogs p; uncaught := uncaught p |}.

Definition with_loading (v : nat) (p : Page) : Page :=
  {| remaining := remaining p; timer_text := timer_text p; form := form p;
     submit_disabled := submit_disabled p; status := status p;
     modals := modals p; banner := banner p; tick_timers := tick_timers p;
     banner_timers := banner_timers p; loading := v;
     submitting := submitting p; logging := logging p; sent := sent p;
     dialogs := dialogs p; uncaught := uncaught p |}.

Definition with_submitting (v : nat) (p : Page) : Page :=
  {| remaining := remaining p; timer_text := timer_text p; form := form p;
     submit_disabled := submit_disabled p; status := status p;
     modals := modals p; banner := banner p; tick_timers := tick_timers p;
     banner_timers := banner_timers p; loading := loading p;
     submitting := v; logging := logging p; sent := sent p;
     dialogs := dialogs p; uncaught := uncaught p |}.

Definition with_logging (v : nat) (p : Page) : Page :=
  {| remaining := remaining p; timer_text := timer_text p; form := form p;
     submit_disabled := submit_disabled p; status := status p;
     modals := modals p; banner := banner p; tick_timers := tick_timers p;
     banner_timers := banner_timers p; loading := loading p;
     submitting := submitting p; logging := v; sent := sent p;
     dialogs := dialogs p; uncaught := uncaught p |}.

Definition with_sent (v : list Request) (p : Page) : Page :=
  {| remaining := remaining p; timer_text := timer_text p; form := form p;
     submit_disabled := submit_disabled p; status := status p;
     modals := modals p; banner := banner p; tick_timers := tick_timers p;
     banner_timers := banner_timers p; loading := loading p;
     submitting := submitting p; logging := logging p; sent := v;
     dialogs := dialogs p; uncaught := uncaught p |}.

Definition with_dialogs (v : nat) (p : Page) : Page :=
  {| remaining := remaining p; timer_text := timer_text p; form := form p;
     submit_disabled := submit_disabled p; status := status p;
     modals := modals p; banner := banner p; tick_timers := tick_timers p;
     banner_timers := banner_timers p; loading := loading p;
     submitting := submitting p; logging := logging p; sent := sent p;
     dialogs := v; uncaught := uncaught p |}.

Definition with_uncaught (v : nat) (p : Page) : Page :=
  {| remaining := remaining p; timer_text := timer_text p; form := form p;
     submit_disabled := submit_disabled p; status := status p;
     modals := modals p; banner := banner p; tick_timers := tick_timers p;
     banner_timers := banner_timers p; loading := loading p;
     submitting := submitting p; logging := logging p; sent := sent p;
     dialogs := dialogs p; uncaught := v |}.

(** [fetch(...)]: the request leaves the page. *)
Definition fetch (r : Request) (p : Page) : Page :=
  with_sent (sent p ++ [r])%list p.

(** An error nobody catches: the running handler stops there. *)
Definition throw (p : Page) : Page := with_uncaught (S (uncaught p)) p.

(** [renderTimer]: minutes and seconds of [remaining], each padded to two
    characters.  [Math.floor(x / 60)] rounds down; [%] truncates. *)
Definition clock (remaining : Z) : string :=
  let m := JS.padStart0 2 (JS.toString (remaining / 60)) in
  let s := JS.padStart0 2 (JS.toString (Z.rem remaining 60)) in
  m +:+ ":" +:+ s.

Definition renderTimer (p : Page) : Page := with_timer_text (clock (remaining p)) p.

(** [submitQuiz(quizId)] up to its first [await].  [yes] is what the student
    answers to the [confirm] dialog. *)
Definition submitQuiz (yes : bool) (quizId : string) (p : Page) : Page :=
  let p := with_dialogs (S (dialogs p)) p in
  if negb yes then p
  else
    let p := with_submit_disabled true p in
    let formatted := serialized_answers (form p) in
    let p := fetch (PostSubmit quizId formatted) p in
    with_submitting (S (submitting p)) p.

(** The rest of [submitQuiz], once its fetch has settled.  A rejected fetch
    ends the function at the [await]. *)
Definition submitQuiz_resume (r : Settled SubmitReply) (p : Page) : Page :=
  match r with
  | Rejected => throw p
  | Fulfilled data =>
      let p :=
        if submit_ok data then
          let p := with_status
                     ("Đã nộp! Điểm: " +:+ show_number (score data) +:+ "/"
                        +:+ show_number (total data), "text-success") p in
          with_modals (S (modals p)) p
        else
          with_status (JS.or_else (submit_error data) "Lỗi nộp bài",
                       "text-danger") p in
      with_submit_disabled false p
  end.

Section Handlers.

Variable G : Globals.

(** [tick] *)
Definition tick (yes : bool) (p : Page) : Page :=
  let p := with_remaining (remaining p - 1) p in
  let p := renderTimer p in
  if (remaining p <=? 0)%Z then submitQuiz yes (QUIZ_ID G) p
  else with_tick_timers (S (tick_timers p)) p.

(** [loadQuiz] up to its [await]. *)
Definition loadQuiz (p : Page) : Page :=
  let p := fetch (GetQuiz (QUIZ_ID G)) p in
  with_loading (S (loading p)) p.

(** The rest of [loadQuiz]. *)
Definition loadQuiz_resume (r : Settled QuizData) (p : Page) : Page :=
  match r with
  | Rejected => throw p
  | Fulfilled data =>
      if JS.truthy (data_error data)
      then with_status (show_string (data_error data), snd (status p)) p
      else
        match questions data with
        | None => throw p
        | Some qs =>
            let p := with_form (form p ++ build_inputs qs)%list p in
            let p := renderTimer p in
            with_tick_timers (S (tick_timers p)) p
        end
  end.

(** The page when the script has run to its end: [remaining] is set and
    [loadQuiz()] has been called.  [b] is the banner of the page. *)
Definition start (b : option Banner) : Page :=
  loadQuiz
    {| remaining := DURATION G; timer_text := EmptyString; form := [];
       submit_disabled := false; status := (EmptyString, EmptyString);
       modals := 0;
       banner := b; tick_timers := 0; banner_timers := 0; loading := 0;
       submitting := 0; logging := 0; sent := []; dialogs := 0;
       uncaught := 0 |}.

(** [showAntiCheat(msg)] *)
Definition showAntiCheat (msg : string) (p : Page) : Page :=
  match banner p with
  | None => p
  | Some _ =>
      let p := with_banner
                 (Some {| html := "<div class=" +:+ JS.dquote
                                    +:+ "alert alert-warning shadow-sm mb-0"
                                    +:+ JS.dquote +:+ " role=" +:+ JS.dquote
                                    +:+ "alert" +:+ JS.dquote +:+ ">"
                                    +:+ msg +:+ "</div>";
                          shown := true |}) p in
      with_banner_timers (S (banner_timers p)) p
  end.

(** The [blur] listener of the window.  The promise of the fetch gets a
    [catch] handler that does nothing. *)
Definition on_blur (p : Page) : Page :=
  let p := showAntiCheat
             "⚠️ Bạn vừa rời khỏi tab — hành động có thể bị ghi nhận." p in
  let p := fetch (PostLogEvent (QUIZ_ID G) (STUDENT_NAME G) "blur") p in
  with_logging (S (logging p)) p.

(** The callback of [showAntiCheat]'s timer: the banner is hidden and
    emptied. *)
Definition hide_banner (p : Page) : Page :=
  match banner p with
  | None => p
  | Some _ => with_banner (Some {| html := EmptyString; shown := false |}) p
  end.

(** The student clicks input number [i] of the form: a checkbox flips; a
    radio button becomes checked and the other radio buttons of its name are
    unchecked. *)
Definition uncheck_group (n : string) (inp : Input) : Input :=
  match type inp with
  | radio =>
      if String.eqb (name inp) n
      then {| type := radio; name := name inp; value := value inp;
              checked := false |}
      else inp
  | checkbox => inp
  end.

Definition click_input (i : nat) (f : list Input) : list Input :=
  match f !! i with
  | None => f
  | Some inp =>
      match type inp with
      | checkbox =>
          <[i := {| type := checkbox; name := name inp; value := value inp;
                    checked := negb (checked inp) |}]> f
      | radio =>
          <[i := {| type := radio; name := name inp; value := value inp;
                    checked := true |}]> (map (uncheck_group (name inp)) f)
      end
  end.

(** What can happen on the quiz page.  An event that shows a [confirm]
    dialog carries the student's answer to it. *)
Inductive Event :=
| QuizFetched (r : Settled QuizData)     (* the fetch of [loadQuiz] settles *)
| TickTimer (yes : bool)                 (* a [setTimeout(tick, 1000)] fires *)
| ClickSubmit (yes : bool)               (* a click on the submit control *)
| SubmitSettled (r : Settled SubmitReply) (* a fetch of [submitQuiz] settles *)
| ClickInput (i : nat)                   (* a click on an answer input *)
| Blur                                   (* the window loses focus *)
| BannerTimer                            (* the banner's timer fires *)
| LogSettled (r : Settled unit).         (* a [/log_event] call settles *)

(** Modelled from the spec: the markup of the quiz page is not part of the
    sources.  The submit control [#submitBtn] is the manual trigger of the
    Submission Controller: a click on it calls [submitQuiz(QUIZ_ID)], and
    while the control is disabled it receives no click. *)
Definition click_submit (yes : bool) (p : Page) : Page :=
  submitQuiz yes (QUIZ_ID G) p.

Definition submit_control_enabled (p : Page) : bool :=
  negb (submit_disabled p).

(** When an event can happen: a timer must be pending, a call must be in
    flight, the control must take clicks. *)
Definition enabled (e : Event) (p : Page) : bool :=
  match e with
  | QuizFetched _ => bool_decide (0 < loading p)
  | TickTimer _ => bool_decide (0 < tick_timers p)
  | ClickSubmit _ => submit_control_enabled p
  | SubmitSettled _ => bool_decide (0 < submitting p)
  | ClickInput _ => true
  | Blur => true
  | BannerTimer => bool_decide (0 < banner_timers p)
  | LogSettled _ => bool_decide (0 < logging p)
  end.

(** The handler the event loop runs for an event. *)
Definition handle (e : Event) (p : Page) : Page :=
  match e with
  | QuizFetched r => loadQuiz_resume r (with_loading (pred (loading p)) p)
  | TickTimer yes => tick yes (with_tick_timers (pred (tick_timers p)) p)
  | ClickSubmit yes => click_submit yes p
  | SubmitSettled r => submitQuiz_resume r (with_submitting (pred (submitting p)) p)
  | ClickInput i => with_form (click_input i (form p)) p
  | Blur => on_blur p
  | BannerTimer => hide_banner (with_banner_timers (pred (banner_timers p)) p)
  | LogSettled _ => with_logging (pred (logging p)) p
  end.

(** A run of the page: [None] when an event of the list cannot happen in the
    state it meets. *)
Fixpoint run (es : list Event) (p : Page) : option Page :=
  match es with
  | [] => Some p
  | e :: es => if enabled e p then run es (handle e p) else None
  end.

End Handlers.

(** The requests to the submission endpoint among [rs]. *)
Definition is_submission (r : Request) : bool :=
  match r with
  | PostSubmit _ _ => true
  | _ => false
  end.

Definition submissions (p : Page) : list Request :=
  List.filter is_submission (sent p).

End Quiz.

(** ** The landing page *)

Module Landing.

(** What crossed the network, oldest first: a request issued, or the
    settlement of an earlier request. *)
Inductive Io :=
| Out (r : Request)
| Back (r : Request) (reply : Settled Reply).

(** The roster behind the two selectors ([loadClasses], [onClassChange]) is
    not modelled: the values of the selectors are whatever the student last
    selected. *)
Record Page := {
  currentCode : string;             (* [let currentCode] *)
  access_code : string;             (* value of [#access_code] *)
  classSel : string;                (* value of [#classSel] *)
  nameSel : string;                 (* value of [#nameSel] *)
  codeStatus : string;              (* text of [#codeStatus] *)
  joinStatus : string;              (* text of [#joinStatus] *)
  code_form : bool;                 (* [#student-code-form] is displayed *)
  student_form : bool;              (* [#student-form] is displayed *)
  teacher_form : bool;              (* [#teacher-form] is displayed *)
  location : option string;         (* [location.href], once assigned *)
  awaiting : list Request;          (* calls in flight *)
  log : list Io;
  uncaught : nat
}.

Definition with_currentCode (v : string) (p : Page) : Page :=
  {| currentCode := v; access_code := access_code p; classSel := classSel p;
     nameSel := nameSel p; codeStatus := codeStatus p;
     joinStatus := joinStatus p; code_form := code_form p;
     student_form := student_form p; teacher_form := teacher_form p;
     location := location p; awaiting := awaiting p; log := log p;
     uncaught := uncaught p |}.

Definition with_inputs (code cls nm : string) (p : Page) : Page :=
  {| currentCode := currentCode p; access_code := code; classSel := cls;
     nameSel := nm; codeStatus := codeStatus p;
     joinStatus := joinStatus p; code_form := code_form p;
     student_form := student_form p; teacher_form := teacher_form p;
     location := location p; awaiting := awaiting p; log := log p;
     uncaught := uncaught p |}.

Definition with_codeStatus (v : string) (p : Page) : Page :=
  {| currentCode := currentCode p; access_code := access_code p;
     classSel := classSel p; nameSel := nameSel p; codeStatus := v;
     joinStatus := joinStatus p; code_form := code_form p;
     student_form := student_form p; teacher_form := teacher_form p;
     location := location p; awaiting := awaiting p; log := log p;
     uncaught := uncaught p |}.

Definition with_joinStatus (v : string) (p : Page) : Page :=
  {| currentCode := currentCode p; access_code := access_code p;
     classSel := classSel p; nameSel := nameSel p;
     codeStatus := codeStatus p; joinStatus := v; code_form := code_form p;
     student_form := student_form p; teacher_form := teacher_form p;
     location := location p; awaiting := awaiting p; log := log p;
     uncaught := uncaught p |}.

Definition with_forms (code student teacher : bool) (p : Page) : Page :=
  {| currentCode := currentCode p; access_code := access_code p;
     classSel := classSel p; nameSel := nameSel p;
     codeStatus := codeStatus p; joinStatus := joinStatus p;
     code_form := code; student_form := student; teacher_form := teacher;
     location := location p; awaiting := awaiting p; log := log p;
     uncaught := uncaught p |}.

Definition with_location (v : option string) (p : Page) : Page :=
  {| currentCode := currentCode p; access_code := access_code p;
     classSel := classSel p; nameSel := nameSel p;
     codeStatus := codeStatus p; joinStatus := joinStatus p;
     code_form := code_form p; student_form := student_form p;
     teacher_form := teacher_form p; location := v; awaiting := awaiting p;
     log := log p; uncaught := uncaught p |}.

Definition with_awaiting (v : list Request) (p : Page) : Page :=
  {| currentCode := currentCode p; access_code := access_code p;
     classSel := classSel p; nameSel := nameSel p;
     codeStatus := codeStatus p; joinStatus := joinStatus p;
     code_form := code_form p; student_form := student_form p;
     teacher_form := teacher_form p; location := location p; awaiting := v;
     log := log p; uncaught := uncaught p |}.

Definition with_log (v : list Io) (p : Page) : Page :=
  {| currentCode := currentCode p; access_code := access_code p;
     classSel := classSel p; nameSel := nameSel p;
     codeStatus := codeStatus p; joinStatus := joinStatus p;
     code_form := code_form p; student_form := student_form p;
     teacher_form := teacher_form p; location := location p;
     awaiting := awaiting p; log := v; uncaught := uncaught p |}.

Definition with_uncaught (v : nat) (p : Page) : Page :=
  {| currentCode := currentCode p; access_code := access_code p;
     classSel := classSel p; nameSel := nameSel p;
     codeStatus := codeStatus p; joinStatus := joinStatus p;
     code_form := code_form p; student_form := student_form p;
     teacher_form := teacher_form p; location := location p;
     awaiting := awaiting p; log := log p; uncaught := v |}.

(** [await fetch(...)]: the request leaves and the caller is suspended. *)
Definition fetch (r : Request) (p : Page) : Page :=
  with_awaiting (awaiting p ++ [r])%list (with_log (log p ++ [Out r])%list p).

Definition throw (p : Page) : Page := with_uncaught (S (uncaught p)) p.

(** [checkCode] up to its [await]. *)
Definition checkCode (p : Page) : Page :=
  let code := JS.trim (access_code p) in
  if JS.falsy code then with_codeStatus "Vui lòng nhập mã kỳ thi!" p
  else fetch (PostCheckCode code) p.

(** The rest of [checkCode]; [code] is its local constant. *)
Definition checkCode_resume (code : string) (r : Settled Reply) (p : Page)
  : Page :=
  match r with
  | Rejected => throw p
  | Fulfilled data =>
      if ok data then
        let p := with_currentCode code p in
        let p := with_codeStatus EmptyString p in
        with_forms false true (teacher_form p) p
      else with_codeStatus (JS.or_else (error data) "Lỗi kiểm tra mã") p
  end.

(** [joinQuiz] up to its first [await], which is inside [registerName]. *)
Definition joinQuiz (p : Page) : Page :=
  let cls := classSel p in
  let name := nameSel p in
  if JS.falsy cls then with_joinStatus "Vui lòng chọn lớp!" p
  else if JS.falsy name then with_joinStatus "Vui lòng chọn tên!" p
  else fetch (PostRegister name cls) p.

(** [joinQuiz] from the answer of [registerName] to its second [await]. *)
Definition joinQuiz_registered (r : Settled Reply) (p : Page) : Page :=
  match r with
  | Rejected => throw p
  | Fulfilled rc =>
      if negb (ok rc)
      then with_joinStatus (JS.or_else (error rc) "Lỗi lưu tên") p
      else fetch (PostJoin (currentCode p)) p
  end.

(** The rest of [joinQuiz]. *)
Definition joinQuiz_joined (r : Settled Reply) (p : Page) : Page :=
  match r with
  | Rejected => throw p
  | Fulfilled data =>
      if ok data
      then with_location (Some ("/quiz/" +:+ show_string (quiz_id data))) p
      else with_joinStatus (JS.or_else (error data) "Lỗi tham gia") p
  end.

(** The function that waits for the settlement of request [r]. *)
Definition resume (r : Request) (reply : Settled Reply) (p : Page) : Page :=
  match r with
  | PostCheckCode code => checkCode_resume code reply p
  | PostRegister _ _ => joinQuiz_registered reply p
  | PostJoin _ => joinQuiz_joined reply p
  | _ => p
  end.

Inductive Event :=
| Input (code cls name : string)    (* the student edits the three inputs *)
| ShowCodeForm                      (* [toggleStudentCodeForm] *)
| ShowTeacherForm                   (* [toggleTeacherForm] *)
| ClickCheck                        (* the control that calls [checkCode] *)
| ClickJoin                         (* the control that calls [joinQuiz] *)
| Settle (i : nat) (reply : Settled Reply). (* call [i] in flight settles *)

(** Modelled from the spec: the markup of the landing page is not part of
    the sources.  The control that calls [joinQuiz] belongs to
    [#student-form], the form of the Session Joiner, which runs only after
    the Access Gate has succeeded: the control can be clicked only while
    that form is displayed. *)
Definition join_control_shown (p : Page) : bool := student_form p.

(** When an event can happen.  Nothing happens on a page that has been
    left. *)
Definition enabled (e : Event) (p : Page) : bool :=
  bool_decide (location p = None) &&
  match e with
  | ClickJoin => join_control_shown p
  | Settle i _ => bool_decide (is_Some (awaiting p !! i))
  | _ => true
  end.

Definition handle (e : Event) (p : Page) : Page :=
  match e with
  | Input code cls name => with_inputs code cls name p
  | ShowCodeForm => with_forms true (student_form p) (teacher_form p) p
  | ShowTeacherForm => with_forms (code_form p) (student_form p) true p
  | ClickCheck => checkCode p
  | ClickJoin => joinQuiz p
  | Settle i reply =>
      match awaiting p !! i with
      | None => p
      | Some r =>
          let p := with_awaiting (delete i (awaiting p)) p in
          let p := with_log (log p ++ [Back r reply])%list p in
          resume r reply p
      end
  end.

Fixpoint run (es : list Event) (p : Page) : option Page :=
  match es with
  | [] => Some p
  | e :: es => if enabled e p then run es (handle e p) else None
  end.

(** Modelled from the spec: the markup of the landing page is not part of
    the sources.  The AccessSession is created empty and unverified: when
    the script starts no code is retained, nothing is in flight, and
    [#student-form], which [checkCode] displays on success, is not displayed
    yet.  The other two forms and the inputs are as the markup has them. *)
Definition initial (code_shown teacher_shown : bool) (code cls name : string)
  : Page :=
  {| currentCode := EmptyString; access_code := code; classSel := cls;
     nameSel := name; codeStatus := EmptyString; joinStatus := EmptyString;
     code_form := code_shown; student_form := false;
     teacher_form := teacher_shown; location := None; awaiting := [];
     log := []; uncaught := 0 |}.

(** An access code passed the gate: a [/api/check_code] call for it came
    back with [ok] true. *)
Definition passed (code : string) (io : Io) : Prop :=
  match io with
  | Back (PostCheckCode c) (Fulfilled data) => c = code ∧ ok data = true
  | _ => False
  end.

End Landing.

(** ** Vocabulary of the statements about the quiz page *)

(** What the countdown and the submission read and write: everything but
    the banner, its timers, the log calls in flight and the requests
    issued. *)
Definition exam_view (p : Quiz.Page) :=
  (Quiz.remaining p, Quiz.timer_text p, Quiz.form p, Quiz.submit_disabled p,
   Quiz.status p, Quiz.modals p, Quiz.tick_timers p, Quiz.loading p,
   Quiz.submitting p, Quiz.dialogs p, Quiz.uncaught p).

Definition is_click (e : Quiz.Event) : bool :=
  match e with
  | Quiz.ClickSubmit _ => true
  | _ => false
  end.

Definition is_submit_settled (e : Quiz.Event) : bool :=
  match e with
  | Quiz.SubmitSettled _ => true
  | _ => false
  end.

Definition is_log_settled (e : Quiz.Event) : bool :=
  match e with
  | Quiz.LogSettled _ => true
  | _ => false
  end.

(** ** Vocabulary of the statements about the answer form *)

(** An input with its check mark removed. *)
Definition uncheck (inp : Input) : Input :=
  {| type := type inp; name := name inp; value := value inp;
     checked := false |}.

(** [form] is the form that [loadQuiz] built for [qs], in some state of its
    check marks. *)
Definition rendered (qs : list Question) (form : list Input) : Prop :=
  map uncheck form = build_inputs qs.

(** The values of the checked inputs of question [q], in document order. *)
Definition chosen (q : Question) (form : list Input) : list string :=
  map value
    (List.filter (fun inp => checked inp && String.eqb (name inp) (input_name q))
       form).

(** The key of [answers] under which [submitQuiz] files an input. *)
Definition clean (inp : Input) : string :=
  JS.replace "[]" EmptyString (name inp).

(** The values of the checked inputs filed under key [n]. *)
Definition picked (n : string) (ins : list Input) : list string :=
  map value
    (List.filter (fun inp => checked inp && String.eqb (clean inp) n) ins).

(** A question id from which the script recovers the id: it has no
    underscore and no pair of brackets. *)
Definition plain_id (s : string) : Prop :=
  JS.includes "_" s = false ∧ JS.includes "[]" s = false.

(** Sample data. *)
Module Sample.

Definition choice (l : string) : Choice :=
  {| label := l; choice_text := "text of " +:+ l; choice_image := None |}.

Definition question (i : string) (m : bool) (ls : list string) : Question :=
  {| id := i; text := "stem of " +:+ i; image := None; multi := m;
     options := map choice ls |}.

Definition q1 : Question := question "1" false ["A"; "B"; "C"].
Definition q2 : Question := question "2" true ["A"; "B"; "C"; "D"].
Definition q3 : Question := question "3" false ["A"; "B"].
Definition q_bare : Question := question "4" false [].
Definition q_a_b : Question := question "a_b" false ["A"].

Definition mark (marks : list bool) (form : list Input) : list Input :=
  zip_with (fun (m : bool) inp =>
              {| type := type inp; name := name inp; value := value inp;
                 checked := m |}) marks form.

(** [q1] with B chosen, [q2] with A and C chosen, [q3] unanswered. *)
Definition answered : list Input :=
  mark [false; true; false; true; false; true; false; false; false]
    (build_inputs [q1; q2; q3]).

Definition globals : Globals :=
  {| QUIZ_ID := "Q9"; DURATION := 5; STUDENT_NAME := "Nguyen An" |}.

Definition quiz_data : QuizData :=
  {| data_error := None; questions := Some [q1; q2; q3] |}.

Definition accepted : SubmitReply :=
  {| submit_ok := true; score := Some 1%Z; total := Some 2%Z;
     submit_error := None |}.

(** The quiz page once the questions have arrived. *)
Definition loaded : Quiz.Page :=
  Quiz.handle globals (Quiz.QuizFetched (Fulfilled quiz_data))
    (Quiz.start globals None).

(** A run of [n] timer events, the confirmation declined when asked. *)
Definition ticks (n : nat) : list Quiz.Event :=
  repeat (Quiz.TickTimer false) n.

(** The page after four of the five seconds. *)
Definition last_second : Quiz.Page :=
  default loaded (Quiz.run globals (ticks 4) loaded).

End Sample.

(** ** Vocabulary of the statements about the landing page *)

(** Every request to the join endpoint in [l] carries a code that had passed
    the gate when the request was issued. *)
Definition joins_verified (l : list Landing.Io) : Prop :=
  ∀ (i : nat) (c : string),
    l !! i = Some (Landing.Out (PostJoin c)) →
    Exists (Landing.passed c) (take i l).

(** What holds of the landing page at every moment. *)
Definition landing_invariant (p : Landing.Page) : Prop :=
  (Landing.student_form p = true →
   Exists (Landing.passed (Landing.currentCode p)) (Landing.log p))
  ∧ (∀ n c, PostRegister n c ∈ Landing.awaiting p →
            Landing.student_form p = true)
  ∧ joins_verified (Landing.log p).

Module SampleLanding.

(** The landing page after the code ["ABC123"] has been typed and
    checked. *)
Definition verified : Landing.Page :=
  default (Landing.initial true false EmptyString EmptyString EmptyString)
    (Landing.run
       [Landing.Input "ABC123" EmptyString EmptyString;
        Landing.ClickCheck;
        Landing.Settle 0
          (Fulfilled {| ok := true; error := None; quiz_id := None |})]
       (Landing.initial true false EmptyString EmptyString EmptyString)).

Definition no_class : Landing.Page :=
  Landing.handle (Landing.Input "ABC123" EmptyString "Nguyen An") verified.

Definition no_name : Landing.Page :=
  Landing.handle (Landing.Input "ABC123" "10A" EmptyString) verified.

Definition ready : Landing.Page :=
  Landing.handle (Landing.Input "ABC123" "10A" "Nguyen An") verified.

Definition yes : Reply := {| ok := true; error := None; quiz_id := None |}.

Definition joined : Reply :=
  {| ok := true; error := None; quiz_id := Some "Q9" |}.

Definition no (e : string) : Reply :=
  {| ok := false; error := Some e; quiz_id := None |}.

End SampleLanding.

(** ** The roster of the landing page *)

Module Roster.

(** A member of a class in the body of [/api/classes]. *)
Record Student := {
  student_name : string
}.

(** [a.sort(compare)]: the sort is stable, so for a comparison that orders
    the elements consistently its result is the one of any stable sort;
    here each element, from the last to the first, is put in front of the
    first element it does not come after.  [before x y] says that the
    comparison does not put [x] after [y]. *)
Section Sort.

Context {A : Type} (before : A → A → bool).

Fixpoint insert (x : A) (l : list A) : list A :=
  match l with
  | [] => [x]
  | y :: t => if before x y then x :: y :: t else y :: insert x t
  end.

Definition sort (l : list A) : list A := foldr insert [] l.

End Sort.

(** A fetch of [/api/classes] in flight, with the function that awaits
    it. *)
Inductive Call :=
| LoadClasses                   (* [loadClasses] *)
| NamesOf (cls : string).       (* the [then] chain of [onClassChange] *)

(** The two selectors: the selected value and the options (value and
    text), in document order. *)
Record Page := {
  class_value : string;
  class_options : list (string * string);
  name_value : string;
  name_options : list (string * string);
  awaiting : list Call;
  fetched : nat;                (* requests to [/api/classes] issued *)
  uncaught : nat
}.

Definition class_placeholder : string * string :=
  (EmptyString, "-- Chọn lớp --").

Definition name_placeholder : string * string :=
  (EmptyString, "-- Chọn tên --").

(** An option whose value and text are both [s]. *)
Definition option_of (s : string) : string * string := (s, s).

Definition fetch (c : Call) (p : Page) : Page :=
  {| class_value := class_value p; class_options := class_options p;
     name_value := name_value p; name_options := name_options p;
     awaiting := (awaiting p ++ [c])%list; fetched := S (fetched p);
     uncaught := uncaught p |}.

Definition throw (p : Page) : Page :=
  {| class_value := class_value p; class_options := class_options p;
     name_value := name_value p; name_options := name_options p;
     awaiting := awaiting p; fetched := fetched p;
     uncaught := S (uncaught p) |}.

(** [sel.innerHTML = ...] with the markup of one option of empty value: the
    options are replaced by that placeholder, which becomes the selected
    option. *)
Definition reset_classes (p : Page) : Page :=
  {| class_value := EmptyString; class_options := [class_placeholder];
     name_value := name_value p; name_options := name_options p;
     awaiting := awaiting p; fetched := fetched p; uncaught := uncaught p |}.

Definition reset_names (p : Page) : Page :=
  {| class_value := class_value p; class_options := class_options p;
     name_value := EmptyString; name_options := [name_placeholder];
     awaiting := awaiting p; fetched := fetched p; uncaught := uncaught p |}.

(** [sel.appendChild(opt)] for each of [opts]; the selection stays. *)
Definition append_classes (opts : list (string * string)) (p : Page) : Page :=
  {| class_value := class_value p;
     class_options := (class_options p ++ opts)%list;
     name_value := name_value p; name_options := name_options p;
     awaiting := awaiting p; fetched := fetched p; uncaught := uncaught p |}.

Definition append_names (opts : list (string * string)) (p : Page) : Page :=
  {| class_value := class_value p; class_options := class_options p;
     name_value := name_value p;
     name_options := (name_options p ++ opts)%list;
     awaiting := awaiting p; fetched := fetched p; uncaught := uncaught p |}.

Definition select (cls : string) (p : Page) : Page :=
  {| class_value := cls; class_options := class_options p;
     name_value := name_value p; name_options := name_options p;
     awaiting := awaiting p; fetched := fetched p; uncaught := uncaught p |}.

Definition select_name (n : string) (p : Page) : Page :=
  {| class_value := class_value p; class_options := class_options p;
     name_value := n; name_options := name_options p;
     awaiting := awaiting p; fetched := fetched p; uncaught := uncaught p |}.

Definition drop_call (i : nat) (p : Page) : Page :=
  {| class_value := class_value p; class_options := class_options p;
     name_value := name_value p; name_options := name_options p;
     awaiting := delete i (awaiting p); fetched := fetched p;
     uncaught := uncaught p |}.

Section Handlers.

(** The two orders of the browser, which are not part of the script: the
    default order of [sort()], by UTF-16 code units ([code_unit_before a b]:
    [a] is not after [b]), and [a.localeCompare(b)], negative, zero or
    positive. *)
Variable code_unit_before : string → string → bool.
Variable localeCompare : string → string → Z.

(** [(a, b) => a.name.localeCompare(b.name)] as an order. *)
Definition by_name (a b : Student) : bool :=
  (localeCompare (student_name a) (student_name b) <=? 0)%Z.

(** [loadClasses] up to its [await]. *)
Definition loadClasses (p : Page) : Page := fetch LoadClasses p.

(** The rest of [loadClasses].  The keys are taken in insertion order; the
    sort that follows decides the order of the options. *)
Definition loadClasses_resume (r : Settled (JS.object (list Student)))
    (p : Page) : Page :=
  match r with
  | Rejected => throw p
  | Fulfilled data =>
      let p := reset_classes p in
      let p := append_classes
                 (map option_of (sort code_unit_before (JS.keys data))) p in
      reset_names p
  end.

(** [onClassChange] up to its fetch. *)
Definition onClassChange (p : Page) : Page :=
  let cls := class_value p in
  let p := reset_names p in
  if JS.falsy cls then p else fetch (NamesOf cls) p.

(** The [then] callbacks of [onClassChange]; [cls] is its local constant.
    Nothing catches a rejection. *)
Definition onClassChange_resume (cls : string)
    (r : Settled (JS.object (list Student))) (p : Page) : Page :=
  match r with
  | Rejected => throw p
  | Fulfilled data =>
      let arr := default [] (JS.get cls data) in
      let arr := sort by_name arr in
      append_names (map (fun s => option_of (student_name s)) arr) p
  end.

Inductive Event :=
| SelectClass (cls : string)      (* the student picks an option of [#classSel] *)
| SelectName (n : string)         (* the student picks an option of [#nameSel] *)
| Settle (i : nat) (r : Settled (JS.object (list Student))).

(** Modelled from the spec: the markup of the landing page is not part of
    the sources.  The class selector is the control of the Roster Client:
    picking one of its options calls [onClassChange()]; only a value among
    the options of a selector can be picked. *)
Definition pick_class (cls : string) (p : Page) : Page :=
  onClassChange (select cls p).

Definition can_pick (v : string) (opts : list (string * string)) : bool :=
  bool_decide (v ∈ map fst opts).

Definition enabled (e : Event) (p : Page) : bool :=
  match e with
  | SelectClass cls => can_pick cls (class_options p)
  | SelectName n => can_pick n (name_options p)
  | Settle i _ => bool_decide (is_Some (awaiting p !! i))
  end.

Definition handle (e : Event) (p : Page) : Page :=
  match e with
  | SelectClass cls => pick_class cls p
  | SelectName n => select_name n p
  | Settle i r =>
      match awaiting p !! i with
      | None => p
      | Some LoadClasses => loadClasses_resume r (drop_call i p)
      | Some (NamesOf cls) => onClassChange_resume cls r (drop_call i p)
      end
  end.

Fixpoint run (es : list Event) (p : Page) : option Page :=
  match es with
  | [] => Some p
  | e :: es => if enabled e p then run es (handle e p) else None
  end.

End Handlers.

End Roster.

(** Sample orders: both compare byte by byte. *)
Module SampleRoster.

Definition before (a b : string) : bool := String.leb a b.

Definition compare (a b : string) : Z :=
  match String.compare a b with
  | Lt => (-1)%Z
  | Eq => 0%Z
  | Gt => 1%Z
  end.

Definition classes : JS.object (list Roster.Student) :=
  [("10B", [{| Roster.student_name := "Tran Binh" |}]);
   ("10A", [{| Roster.student_name := "Nguyen An" |};
            {| Roster.student_name := "Le Chi" |}])].

Definition page : Roster.Page :=
  {| Roster.class_value := EmptyString;
     Roster.class_options := [Roster.class_placeholder];
     Roster.name_value := EmptyString;
     Roster.name_options := [Roster.name_placeholder];
     Roster.awaiting := []; Roster.fetched := 0; Roster.uncaught := 0 |}.

End SampleRoster.

(** ** Vocabulary of the further statements about the quiz page *)

Definition is_log_event (r : Request) : bool :=
  match r with
  | PostLogEvent _ _ _ => true
  | _ => false
  end.

Definition is_blur (e : Quiz.Event) : bool :=
  match e with
  | Quiz.Blur => true
  | _ => false
  end.


(** The banner is on display. *)
Definition banner_shown (p : Quiz.Page) : bool :=
  match Quiz.banner p with
  | Some b => Quiz.shown b
  | None => false
  end.

(** The fetch of [loadQuiz] did not bring a question set. *)
Definition load_failed (r : Settled QuizData) : Prop :=
  match r with
  | Rejected => True
  | Fulfilled data =>
      JS.truthy (data_error data) = true ∨ questions data = None
  end.

(** A submission of the empty form. *)
Definition empty_submission (G : Globals) (r : Request) : Prop :=
  match r with
  | PostSubmit q a => q = QUIZ_ID G ∧ a = ∅
  | _ => True
  end.

(** The checked radio buttons of name [n]. *)
Definition radio_marks (n : string) (f : list Input) : list Input :=
  List.filter
    (fun inp =>
       checked inp
       && match type inp with radio => true | checkbox => false end
       && String.eqb (name inp) n) f.

(** The part of a question id that [submitQuiz] keeps: the text before its
    first underscore. *)
Definition id_head (s : string) : string :=
  default EmptyString (head (JS.split "_" s)).

(** ** Vocabulary of the further statements about the landing page *)


(** A request with every field filled in. *)
Definition filled (r : Request) : Prop :=
  match r with
  | PostCheckCode c => c ≠ EmptyString
  | PostRegister n c => n ≠ EmptyString ∧ c ≠ EmptyString
  | PostJoin c => c ≠ EmptyString
  | _ => False
  end.

Definition filled_io (io : Landing.Io) : Prop :=
  match io with
  | Landing.Out r => filled r
  | Landing.Back _ _ => True
  end.

(** The answer to a registration that the server accepted. *)
Definition registered (io : Landing.Io) : Prop :=
  match io with
  | Landing.Back (PostRegister _ _) (Fulfilled rc) => ok rc = true
  | _ => False
  end.

(** Every request to the join endpoint in [l] comes right after the answer
    to an accepted registration. *)
Definition joins_follow_registration (l : list Landing.Io) : Prop :=
  ∀ (i : nat) (c : string),
    l !! i = Some (Landing.Out (PostJoin c)) →
    ∃ j io, i = S j ∧ l !! j = Some io ∧ registered io.

Definition is_rejection (e : Landing.Event) : bool :=
  match e with
  | Landing.Settle _ Rejected => true
  | _ => false
  end.

Definition is_out (io : Landing.Io) : bool :=
  match io with
  | Landing.Out _ => true
  | Landing.Back _ _ => false
  end.

(** What the student sees of the landing page, and the retained code. *)
Definition landing_view (p : Landing.Page) :=
  (Landing.currentCode p, Landing.codeStatus p, Landing.joinStatus p,
   Landing.code_form p, Landing.student_form p, Landing.teacher_form p,
   Landing.location p).

(** Unfolds the handlers of the landing page. *)
Ltac landing_unfold :=
  unfold Landing.handle, Landing.checkCode, Landing.joinQuiz, Landing.resume,
    Landing.checkCode_resume, Landing.joinQuiz_registered,
    Landing.joinQuiz_joined, Landing.fetch, Landing.throw in *;
  simpl in *.

(** Unfolds the handlers of the quiz page. *)
Ltac quiz_unfold :=
  unfold Quiz.handle, Quiz.tick, Quiz.click_submit, Quiz.submitQuiz,
    Quiz.submitQuiz_resume, Quiz.loadQuiz_resume, Quiz.on_blur,
    Quiz.showAntiCheat, Quiz.hide_banner, Quiz.renderTimer, Quiz.fetch,
    Quiz.throw, Quiz.enabled, Quiz.submit_control_enabled in *;
  simpl in *.

(** * Properties *)

(** ** Strings *)

Section Strings.

Lemma startsWith_cons (a b : ascii) (p s : string) :
  JS.startsWith (String a p) (String b s)
  = bool_decide (a = b) && JS.startsWith p s.
Proof.
  unfold JS.startsWith. simpl.
  destruct (ascii_dec a b) as [->|Hne].
  - by rewrite bool_decide_eq_true_2.
  - by rewrite bool_decide_eq_false_2.
Qed.

Lemma startsWith_nil (s : string) : JS.startsWith EmptyString s = true.
Proof. by destruct s. Qed.

Lemma append_cons (c : ascii) (t s : string) :
  String c t +:+ s = String c (t +:+ s).
Proof. reflexivity. Qed.

Lemma append_empty (s : string) : s +:+ EmptyString = s.
Proof. induction s as [|c t IH]; [done|]. by rewrite append_cons, IH. Qed.

Lemma replace_cons (pat rep : string) (c : ascii) (t : string) :
  JS.replace pat rep (String c t)
  = if JS.startsWith pat (String c t)
    then rep +:+ JS.drop_chars (String.length pat) (String c t)
    else String c (JS.replace pat rep t).
Proof. reflexivity. Qed.

Lemma replace_absent (pat rep s : string) :
  JS.includes pat s = false → JS.replace pat rep s = s.
Proof.
  induction s as [|c t IH]; simpl; intros H.
  - apply orb_false_elim in H as [-> _]. done.
  - apply orb_false_elim in H as [-> H]. by rewrite IH.
Qed.

Lemma replace_brackets_suffix (s : string) :
  JS.includes "[]" s = false → JS.replace "[]" EmptyString (s +:+ "[]") = s.
Proof.
  induction s as [|c t IH]; [done|].
  intros H. cbn [JS.includes] in H.
  apply orb_false_elim in H as [Hp H].
  change (String c t +:+ "[]") with (String c (t +:+ "[]")).
  rewrite replace_cons.
  assert (JS.startsWith "[]" (String c (t +:+ "[]")) = false) as ->.
  { rewrite startsWith_cons in Hp |- *.
    case_bool_decide; [|done]. rewrite andb_true_l in Hp |- *.
    destruct t as [|d t]; [done|].
    change (String d t +:+ "[]") with (String d (t +:+ "[]")).
    rewrite startsWith_cons in Hp |- *.
    by rewrite startsWith_nil in Hp |- *. }
  by rewrite IH.
Qed.

Lemma split_absent (s : string) :
  JS.includes "_" s = false → JS.split "_" s = [s].
Proof.
  induction s as [|c t IH]; [done|].
  intros H. cbn [JS.includes] in H.
  apply orb_false_elim in H as [Hp H].
  rewrite startsWith_cons, startsWith_nil, andb_true_r in Hp.
  apply bool_decide_eq_false in Hp.
  cbn [JS.split]. rewrite IH by done.
  destruct (Ascii.eqb_spec c "_") as [->|_]; [done|done].
Qed.

Lemma clean_input_name (q : Question) :
  JS.includes "[]" (id q) = false →
  JS.replace "[]" EmptyString (input_name q) = "q_" +:+ id q.
Proof.
  intros H. unfold input_name. destruct (multi q).
  - change ("q_" +:+ id q +:+ "[]") with (("q_" +:+ id q) +:+ "[]").
    by apply replace_brackets_suffix.
  - rewrite append_empty. by apply replace_absent.
Qed.

(** [v || d] is [v] when [v] is a string that is not empty. *)
Lemma or_else_error (c : ascii) (e d : string) :
  JS.or_else (Some (String c e)) d = String c e.
Proof. reflexivity. Qed.

Lemma qid_of_plain_key (s : string) :
  JS.includes "_" s = false → qid_of_key ("q_" +:+ s) = s.
Proof.
  intros H. unfold qid_of_key. simpl. by rewrite split_absent.
Qed.

End Strings.

(** ** Objects *)

Section Objects.

Context {V : Type}.
Implicit Types (o : JS.object V) (k : string) (v : V).

Lemma get_set_eq k v o : JS.get k (JS.set k v o) = Some v.
Proof.
  induction o as [|[k' v'] o IH]; simpl.
  - by rewrite String.eqb_refl.
  - destruct (String.eqb_spec k' k) as [->|Hne]; simpl.
    + by rewrite String.eqb_refl.
    + by destruct (String.eqb_spec k' k).
Qed.

Lemma get_set_ne k k' v o : k ≠ k' → JS.get k' (JS.set k v o) = JS.get k' o.
Proof.
  intros Hne. induction o as [|[k0 v0] o IH]; simpl.
  - by destruct (String.eqb_spec k k').
  - destruct (String.eqb_spec k0 k) as [->|Hk]; simpl.
    + by destruct (String.eqb_spec k k').
    + by rewrite IH.
Qed.

Lemma get_None_keys k o : JS.get k o = None ↔ k ∉ JS.keys o.
Proof.
  induction o as [|[k0 v0] o IH]; simpl.
  - split; [intros _; apply not_elem_of_nil | done].
  - rewrite not_elem_of_cons. destruct (String.eqb_spec k0 k) as [->|Hk].
    + split; [done | by intros [? _]].
    + rewrite IH. split; [by intros ?; split | by intros [_ ?]].
Qed.

Lemma keys_set k v o :
  JS.keys (JS.set k v o)
  = match JS.get k o with
    | Some _ => JS.keys o
    | None => (JS.keys o ++ [k])%list
    end.
Proof.
  induction o as [|[k0 v0] o IH]; simpl; [done|].
  destruct (String.eqb_spec k0 k) as [->|Hk]; simpl; [done|].
  rewrite IH. by destruct (JS.get k o).
Qed.

Lemma NoDup_keys_set k v o : NoDup (JS.keys o) → NoDup (JS.keys (JS.set k v o)).
Proof.
  intros Hnd. rewrite keys_set. destruct (JS.get k o) eqn:Hg; [done|].
  apply NoDup_app. split_and!; [done | | apply NoDup_singleton].
  intros x Hx ->%list_elem_of_singleton. by apply get_None_keys in Hg.
Qed.

End Objects.

(** ** Answer collection *)

Section Collection.

Implicit Types (answers : JS.object (list string)) (inp : Input).

Lemma collect_input_get (n : string) answers inp :
  JS.get n (collect_input answers inp)
  = if String.eqb (clean inp) n
    then Some (default [] (JS.get n answers)
               ++ (if checked inp then [value inp] else []))%list
    else JS.get n answers.
Proof.
  unfold collect_input. fold (clean inp).
  destruct (String.eqb_spec (clean inp) n) as [<-|Hne].
  - destruct (JS.get (clean inp) answers) as [vs|] eqn:Hg; simpl.
    + destruct (checked inp).
      * by rewrite Hg, get_set_eq.
      * by rewrite Hg, app_nil_r.
    + rewrite get_set_eq. destruct (checked inp); by rewrite get_set_eq.
  - destruct (JS.get (clean inp) answers) as [vs|] eqn:Hg; simpl.
    + destruct (checked inp); [|done]. by rewrite Hg, get_set_ne.
    + rewrite get_set_eq.
      destruct (checked inp); by rewrite !get_set_ne.
Qed.

Lemma picked_cons (n : string) inp (ins : list Input) :
  picked n (inp :: ins)
  = ((if checked inp && String.eqb (clean inp) n then [value inp] else [])
     ++ picked n ins)%list.
Proof. unfold picked. simpl. by destruct (checked inp && _). Qed.

Lemma picked_absent (n : string) (ins : list Input) :
  existsb (fun inp => String.eqb (clean inp) n) ins = false →
  picked n ins = [].
Proof.
  induction ins as [|inp ins IH]; [done|]. simpl.
  intros [Hn Hex]%orb_false_elim.
  by rewrite picked_cons, Hn, andb_false_r, IH.
Qed.

Lemma collect_input_NoDup answers inp :
  NoDup (JS.keys answers) → NoDup (JS.keys (collect_input answers inp)).
Proof.
  intros Hnd. unfold collect_input.
  repeat (case_match; try apply NoDup_keys_set; try done).
Qed.

Lemma collect_get (n : string) (ins : list Input) answers :
  JS.get n (fold_left collect_input ins answers)
  = if existsb (fun inp => String.eqb (clean inp) n) ins
    then Some (default [] (JS.get n answers) ++ picked n ins)%list
    else JS.get n answers.
Proof.
  revert answers. induction ins as [|inp ins IH]; intros answers; [done|].
  simpl. rewrite IH, collect_input_get, picked_cons.
  destruct (String.eqb (clean inp) n); simpl.
  - rewrite andb_true_r.
    destruct (existsb _ ins) eqn:Hex.
    + destruct (checked inp); simpl; by rewrite <- ?app_assoc, ?app_nil_r.
    + rewrite (picked_absent n ins Hex).
      destruct (checked inp); simpl; by rewrite ?app_nil_r.
  - by rewrite andb_false_r.
Qed.

Lemma collect_NoDup (ins : list Input) answers :
  NoDup (JS.keys answers) →
  NoDup (JS.keys (fold_left collect_input ins answers)).
Proof.
  revert answers. induction ins as [|inp ins IH]; intros answers Hnd; [done|].
  simpl. by apply IH, collect_input_NoDup.
Qed.

Lemma collect_answers_keys (k : string) (ins : list Input) :
  k ∈ JS.keys (collect_answers ins) → ∃ inp, inp ∈ ins ∧ clean inp = k.
Proof.
  intros Hk. destruct (JS.get k (collect_answers ins)) as [vs|] eqn:Hg.
  - unfold collect_answers in Hg. rewrite collect_get in Hg.
    destruct (existsb _ ins) eqn:Hex; [|done].
    apply existsb_exists in Hex as (inp & Hin & Heq).
    exists inp. split; [by apply list_elem_of_In|].
    by apply String.eqb_eq.
  - by apply get_None_keys in Hg.
Qed.

(** ** Formatting *)

Lemma format_fold_miss answers (ks : list string) m (x : string) :
  (∀ k, k ∈ ks → qid_of_key k ≠ x) →
  fold_left (format_key answers) ks m !! x = m !! x.
Proof.
  revert m. induction ks as [|k ks IH]; intros m Hks; [done|].
  simpl. rewrite IH by (intros; apply Hks; by right).
  unfold format_key. destruct (JS.get k answers); [|done].
  apply lookup_insert_ne, Hks. by left.
Qed.

Lemma format_fold_hit answers (ks : list string) m (k : string) vs :
  NoDup ks → k ∈ ks →
  (∀ k', k' ∈ ks → qid_of_key k' = qid_of_key k → k' = k) →
  JS.get k answers = Some vs →
  fold_left (format_key answers) ks m !! qid_of_key k = Some vs.
Proof.
  revert m. induction ks as [|k0 ks IH]; intros m Hnd Hin Hinj Hg.
  { by apply elem_of_nil in Hin. }
  apply NoDup_cons in Hnd as [Hk0 Hnd]. simpl.
  apply elem_of_cons in Hin as [->|Hin].
  - rewrite format_fold_miss.
    + unfold format_key. rewrite Hg. apply lookup_insert_eq.
    + intros k' Hk' Heq. apply Hk0.
      rewrite <- (Hinj k'); [done | by right | done].
  - apply IH; [done | done | | done].
    intros k' Hk'. apply Hinj. by right.
Qed.

Lemma format_fold_dom answers (ks : list string) m (x : string) :
  is_Some (fold_left (format_key answers) ks m !! x) →
  is_Some (m !! x) ∨ ∃ k, k ∈ ks ∧ qid_of_key k = x.
Proof.
  revert m. induction ks as [|k ks IH]; intros m Hs; [by left|].
  simpl in Hs. apply IH in Hs as [Hs|(k' & Hk' & Heq)].
  - unfold format_key in Hs. destruct (JS.get k answers); [|by left].
    destruct (decide (qid_of_key k = x)) as [Heq|Hne].
    + right. exists k. split; [by left | done].
    + left. by rewrite lookup_insert_ne in Hs.
  - right. exists k'. split; [by right | done].
Qed.

End Collection.

(** ** The form built by [loadQuiz] *)

Section Rendered.

Variables (qs : list Question) (form : list Input).
Hypothesis Hform : rendered qs form.

Lemma rendered_elem (inp : Input) :
  inp ∈ form →
  ∃ q opt, q ∈ qs ∧ opt ∈ options q
           ∧ name inp = input_name q ∧ value inp = label opt.
Proof.
  intros Hin. assert (In (uncheck inp) (build_inputs qs)) as Hu.
  { rewrite <- Hform. apply in_map. by apply list_elem_of_In. }
  apply in_flat_map in Hu as (q & Hq & Hu).
  apply in_map_iff in Hu as (opt & Heq & Hopt).
  exists q, opt. rewrite <- !list_elem_of_In in *.
  split_and!; [done | done | |].
  - change (name inp) with (name (uncheck inp)). by rewrite <- Heq.
  - change (value inp) with (value (uncheck inp)). by rewrite <- Heq.
Qed.

Lemma rendered_has_input (q : Question) :
  q ∈ qs → options q ≠ [] → ∃ inp, inp ∈ form ∧ name inp = input_name q.
Proof.
  intros Hq Hopts. destruct (options q) as [|opt opts] eqn:Heq; [done|].
  assert (In (make_input q opt) (map uncheck form)) as Hin.
  { rewrite Hform. apply in_flat_map. exists q.
    split; [by apply list_elem_of_In|]. rewrite Heq. by left. }
  apply in_map_iff in Hin as (inp & Hu & Hin).
  exists inp. split; [by apply list_elem_of_In|].
  change (name inp) with (name (uncheck inp)). by rewrite Hu.
Qed.

Lemma rendered_answer_inputs : answer_inputs form = form.
Proof.
  unfold answer_inputs. apply forallb_filter_id, forallb_forall.
  intros inp Hin%list_elem_of_In.
  apply rendered_elem in Hin as (q & _ & _ & _ & -> & _).
  unfold input_name.
  by rewrite !append_cons, !startsWith_cons, startsWith_nil,
    !bool_decide_eq_true_2.
Qed.

Hypothesis Hplain : ∀ q, q ∈ qs → plain_id (id q).

Lemma rendered_clean (inp : Input) :
  inp ∈ form → ∃ q, q ∈ qs ∧ name inp = input_name q
                    ∧ clean inp = "q_" +:+ id q.
Proof.
  intros (q & _ & Hq & _ & Hn & _)%rendered_elem.
  exists q. split_and!; [done..|].
  unfold clean. rewrite Hn. apply clean_input_name, Hplain, Hq.
Qed.

Lemma rendered_key_inj (k k' : string) :
  k ∈ JS.keys (collect_answers form) →
  k' ∈ JS.keys (collect_answers form) →
  qid_of_key k' = qid_of_key k → k' = k.
Proof.
  intros (inp & Hin & <-)%collect_answers_keys
         (inp' & Hin' & <-)%collect_answers_keys.
  apply rendered_clean in Hin as (q & Hq & _ & ->).
  apply rendered_clean in Hin' as (q' & Hq' & _ & ->).
  rewrite !qid_of_plain_key by (by apply Hplain). by intros ->.
Qed.

(** Every key of the serialized answers is the id of a question. *)
Lemma rendered_keys_are_ids (x : string) :
  is_Some (serialized_answers form !! x) → ∃ q, q ∈ qs ∧ id q = x.
Proof.
  unfold serialized_answers, format_answers. rewrite rendered_answer_inputs.
  intros [Hs|(k & Hk & <-)]%format_fold_dom.
  { rewrite lookup_empty in Hs. by destruct Hs. }
  apply collect_answers_keys in Hk as (inp & Hin & <-).
  apply rendered_clean in Hin as (q & Hq & _ & ->).
  exists q. split; [done|]. symmetry. by apply qid_of_plain_key, Hplain.
Qed.

Hypothesis Hids : NoDup (map id qs).

Lemma rendered_same_question (q q' : Question) :
  q ∈ qs → q' ∈ qs → id q' = id q → q' = q.
Proof.
  clear Hform Hplain. induction qs as [|q0 l IH]; intros Hq Hq' Heq.
  { by apply elem_of_nil in Hq. }
  simpl in Hids. apply NoDup_cons in Hids as [Hq0 Hnd].
  apply elem_of_cons in Hq as [->|Hq]; apply elem_of_cons in Hq' as [->|Hq'].
  - done.
  - exfalso. apply Hq0. rewrite <- Heq. by apply list_elem_of_fmap_2.
  - exfalso. apply Hq0. rewrite Heq. by apply list_elem_of_fmap_2.
  - by apply IH.
Qed.

Lemma rendered_picked (q : Question) :
  q ∈ qs → picked ("q_" +:+ id q) form = chosen q form.
Proof.
  intros Hq. unfold picked, chosen. f_equal. apply filter_ext_in.
  intros inp Hin%list_elem_of_In. f_equal.
  apply rendered_clean in Hin as (q' & Hq' & Hn & Hc). rewrite Hn, Hc.
  destruct (String.eqb_spec (input_name q') (input_name q)) as [Heq|Hne].
  - apply String.eqb_eq. f_equal.
    assert (clean_of : "q_" +:+ id q' = "q_" +:+ id q); [|by simplify_eq].
    rewrite <- !clean_input_name by (by apply Hplain). by rewrite Heq.
  - apply String.eqb_neq. intros Heq. apply Hne.
    assert (id q' = id q) as Hid by (by simplify_eq).
    by rewrite (rendered_same_question q q').
Qed.

Lemma rendered_lookup (q : Question) :
  q ∈ qs → options q ≠ [] →
  serialized_answers form !! id q = Some (chosen q form).
Proof.
  intros Hq Hopts. pose proof (Hplain q Hq) as [Hu Hb].
  rewrite <- rendered_picked by done.
  unfold serialized_answers, format_answers. rewrite rendered_answer_inputs.
  assert (JS.get ("q_" +:+ id q) (collect_answers form)
          = Some (picked ("q_" +:+ id q) form)) as Hget.
  { unfold collect_answers. rewrite collect_get.
    assert (existsb (λ inp, String.eqb (clean inp) ("q_" +:+ id q)) form
            = true) as ->; [|done].
    apply existsb_exists.
    destruct (rendered_has_input q Hq Hopts) as (inp & Hin & Hn).
    exists inp. split; [by apply list_elem_of_In|].
    apply String.eqb_eq. unfold clean. rewrite Hn.
    by apply clean_input_name. }
  rewrite <- (qid_of_plain_key (id q)) at 1 by done.
  apply format_fold_hit; [| | |done].
  - apply (collect_NoDup form []), NoDup_nil_2.
  - destruct (decide ("q_" +:+ id q ∈ JS.keys (collect_answers form)))
      as [?|Hn]; [done|].
    apply get_None_keys in Hn. by rewrite Hn in Hget.
  - intros k' Hk'. apply rendered_key_inj; [|done].
    destruct (decide ("q_" +:+ id q ∈ JS.keys (collect_answers form)))
      as [?|Hn]; [done|].
    apply get_None_keys in Hn. by rewrite Hn in Hget.
Qed.

End Rendered.

(** ** Claims about answer collection *)

(** C5, as amended.  Let [form] be the form that [loadQuiz] built for a
    question set whose ids are distinct and contain neither an underscore
    nor a pair of brackets.  For every question of the set that has at least
    one option, the answers serialized by [submitQuiz] have a key equal to
    the question's id, and its value lists the values of the checked inputs
    of that question in document order; when none of them is checked the
    value is the empty list. *)
Theorem collected_answers_of_rendered_form
    (qs : list Question) (form : list Input) (q : Question) :
  rendered qs form →
  (∀ q', q' ∈ qs → plain_id (id q')) →
  NoDup (map id qs) →
  q ∈ qs →
  options q ≠ [] →
  serialized_answers form !! id q = Some (chosen q form)
  ∧ ((∀ inp, inp ∈ form → name inp = input_name q → checked inp = false) →
     serialized_answers form !! id q = Some []).
Proof.
  intros Hform Hplain Hids Hq Hopts.
  pose proof (rendered_lookup qs form Hform Hplain Hids q Hq Hopts) as Hl.
  split; [done|]. intros Hnone. rewrite Hl. f_equal.
  unfold chosen. clear Hl Hform. induction form as [|inp l IH]; [done|].
  simpl. destruct (String.eqb_spec (name inp) (input_name q)) as [Hn|Hn].
  - rewrite (Hnone inp) by (done || by left). simpl.
    apply IH. intros inp' Hin'. apply Hnone. by right.
  - rewrite andb_false_r. apply IH. intros inp' Hin'. apply Hnone. by right.
Qed.

(** The three cases of the specification: a single-select question with B
    chosen, a multi-select question with A and C chosen, and an unanswered
    question. *)
Lemma collected_answers_sample :
  serialized_answers Sample.answered !! "1" = Some ["B"]
  ∧ serialized_answers Sample.answered !! "2" = Some ["A"; "C"]
  ∧ serialized_answers Sample.answered !! "3" = Some [].
Proof.
  assert (rendered [Sample.q1; Sample.q2; Sample.q3] Sample.answered)
    as Hform by reflexivity.
  assert (∀ q', q' ∈ [Sample.q1; Sample.q2; Sample.q3] → plain_id (id q'))
    as Hplain.
  { intros q' Hq'.
    repeat (apply elem_of_cons in Hq' as [->|Hq']; [by split|]).
    by apply elem_of_nil in Hq'. }
  assert (NoDup (map id [Sample.q1; Sample.q2; Sample.q3])) as Hids.
  { by apply (bool_decide_unpack (NoDup _)). }
  split_and!.
  - refine (proj1 (collected_answers_of_rendered_form _ _ Sample.q1
                     Hform Hplain Hids _ _)); [by left | done].
  - refine (proj1 (collected_answers_of_rendered_form _ _ Sample.q2
                     Hform Hplain Hids _ _)); [by right; left | done].
  - refine (proj1 (collected_answers_of_rendered_form _ _ Sample.q3
                     Hform Hplain Hids _ _)); [by do 2 right; left | done].
Defined.

(** C5, as stated, fails: a rendered question without options has no input,
    so the serialized answers have no key for it. *)
Lemma question_without_options_has_no_key :
  rendered [Sample.q_bare] (build_inputs [Sample.q_bare])
  ∧ Sample.q_bare ∈ [Sample.q_bare]
  ∧ serialized_answers (build_inputs [Sample.q_bare]) !! id Sample.q_bare
    = None.
Proof. split_and!; [reflexivity | by left | reflexivity]. Qed.

(** C6 at the failing input: for the question set with the single question
    of id [a_b], whose option A is checked, the serialized answers have the
    one key [a], which is the id of no question of the set. *)
Theorem underscore_id_is_truncated :
  let form := Sample.mark [true] (build_inputs [Sample.q_a_b]) in
  rendered [Sample.q_a_b] form
  ∧ serialized_answers form = {[ "a" := ["A"] ]}
  ∧ "a" ∉ map id [Sample.q_a_b].
Proof.
  split_and!; [reflexivity | by vm_compute |].
  intros [Heq | Hin]%elem_of_cons; [discriminate Heq|].
  by apply elem_of_nil in Hin.
Qed.

(** ** The quiz page *)

Section QuizPage.

Variable G : Globals.
Implicit Types (p : Quiz.Page) (yes : bool).

(** The display of the countdown with 65 seconds left. *)
Example clock_65 : Quiz.clock 65 = "01:05".
Proof. by vm_compute. Qed.

Example clock_0 : Quiz.clock 0 = "00:00".
Proof. by vm_compute. Qed.

Lemma submitQuiz_declined (quizId : string) p :
  Quiz.submitQuiz false quizId p = Quiz.with_dialogs (S (Quiz.dialogs p)) p.
Proof. reflexivity. Qed.

Lemma submitQuiz_confirmed (quizId : string) p :
  let p' := Quiz.submitQuiz true quizId p in
  Quiz.submit_disabled p' = true
  ∧ Quiz.sent p'
    = (Quiz.sent p ++ [PostSubmit quizId (serialized_answers (Quiz.form p))])%list
  ∧ Quiz.submitting p' = S (Quiz.submitting p)
  ∧ Quiz.dialogs p' = S (Quiz.dialogs p)
  ∧ Quiz.remaining p' = Quiz.remaining p
  ∧ Quiz.tick_timers p' = Quiz.tick_timers p.
Proof. by split_and!. Qed.

(** A timer event before the last second: the countdown goes on and nothing
    else changes. *)
Lemma tick_running yes p :
  0 < Quiz.tick_timers p → (1 < Quiz.remaining p)%Z →
  let p' := Quiz.handle G (Quiz.TickTimer yes) p in
  Quiz.remaining p' = (Quiz.remaining p - 1)%Z
  ∧ Quiz.tick_timers p' = Quiz.tick_timers p
  ∧ Quiz.dialogs p' = Quiz.dialogs p
  ∧ Quiz.sent p' = Quiz.sent p
  ∧ Quiz.submitting p' = Quiz.submitting p
  ∧ Quiz.submit_disabled p' = Quiz.submit_disabled p
  ∧ Quiz.form p' = Quiz.form p
  ∧ Quiz.loading p' = Quiz.loading p.
Proof.
  intros Ht Hr. unfold Quiz.handle, Quiz.tick. simpl.
  destruct (Z.leb_spec (Quiz.remaining p - 1) 0) as [?|_]; [lia|].
  simpl. split_and!; try done. lia.
Qed.

(** The timer event of the last second: the countdown stops and
    [submitQuiz] is called. *)
Lemma tick_expiry yes p :
  (Quiz.remaining p <= 1)%Z →
  Quiz.handle G (Quiz.TickTimer yes) p
  = Quiz.submitQuiz yes (QUIZ_ID G)
      (Quiz.renderTimer
         (Quiz.with_remaining (Quiz.remaining p - 1)
            (Quiz.with_tick_timers (pred (Quiz.tick_timers p)) p))).
Proof.
  intros Hr. unfold Quiz.handle, Quiz.tick. simpl.
  destruct (Z.leb_spec (Quiz.remaining p - 1) 0) as [_|?]; [done|lia].
Qed.

Lemma countdown (ys : list bool) p :
  Quiz.tick_timers p = 1 →
  (Z.of_nat (length ys) < Quiz.remaining p)%Z →
  ∃ p', Quiz.run G (map Quiz.TickTimer ys) p = Some p'
        ∧ Quiz.remaining p' = (Quiz.remaining p - Z.of_nat (length ys))%Z
        ∧ Quiz.tick_timers p' = 1
        ∧ Quiz.dialogs p' = Quiz.dialogs p
        ∧ Quiz.sent p' = Quiz.sent p
        ∧ Quiz.submitting p' = Quiz.submitting p
        ∧ Quiz.submit_disabled p' = Quiz.submit_disabled p
        ∧ Quiz.form p' = Quiz.form p
        ∧ Quiz.loading p' = Quiz.loading p.
Proof.
  revert p. induction ys as [|y ys IH]; intros p Ht Hr.
  { exists p. split_and!; try done. simpl. lia. }
  simpl length in *. cbn [map Quiz.run].
  assert (Quiz.enabled (Quiz.TickTimer y) p = true) as ->.
  { simpl. apply bool_decide_eq_true_2. lia. }
  destruct (tick_running y p) as (Hr' & Ht' & Hd & Hs & Hi & Hb & Hf & Hl);
    [lia | lia |].
  destruct (IH (Quiz.handle G (Quiz.TickTimer y) p)) as (p' & Hrun & H');
    [congruence | lia |].
  exists p'. split; [done|].
  rewrite Hr', Hd, Hs, Hi, Hb, Hf, Hl in H'.
  destruct H' as (-> & ? & ? & ? & ? & ? & ? & ?). split_and!; try done. lia.
Qed.

Lemma run_app (es1 es2 : list Quiz.Event) p :
  Quiz.run G (es1 ++ es2) p = Quiz.run G es1 p ≫= Quiz.run G es2.
Proof.
  revert p. induction es1 as [|e es1 IH]; intros p; [done|].
  simpl. by destruct (Quiz.enabled e p).
Qed.

(** The page when the questions have arrived. *)
Lemma loaded_page (b : option Quiz.Banner) (qs : list Question) :
  let p := Quiz.handle G
             (Quiz.QuizFetched
                (Fulfilled {| data_error := None; questions := Some qs |}))
             (Quiz.start G b) in
  Quiz.enabled
    (Quiz.QuizFetched
       (Fulfilled {| data_error := None; questions := Some qs |}))
    (Quiz.start G b) = true
  ∧ Quiz.remaining p = DURATION G
  ∧ Quiz.tick_timers p = 1
  ∧ Quiz.dialogs p = 0
  ∧ Quiz.sent p = [GetQuiz (QUIZ_ID G)]
  ∧ Quiz.submitting p = 0
  ∧ Quiz.loading p = 0
  ∧ Quiz.submit_disabled p = false
  ∧ Quiz.form p = build_inputs qs.
Proof. by split_and!. Qed.

(** As long as no submission settles, a disabled submit control stays
    disabled, so no click on it happens. *)
Lemma disabled_until_settled (es : list Quiz.Event) p p' :
  Quiz.submit_disabled p = true →
  existsb is_submit_settled es = false →
  Quiz.run G es p = Some p' →
  existsb is_click es = false ∧ Quiz.submit_disabled p' = true.
Proof.
  revert p. induction es as [|e es IH]; intros p Hd Hs Hrun.
  { by simplify_eq/=. }
  simpl in Hs. apply orb_false_elim in Hs as [He Hs].
  cbn [Quiz.run] in Hrun.
  destruct (Quiz.enabled e p) eqn:Hen; [|done].
  assert (is_click e = false
          ∧ Quiz.submit_disabled (Quiz.handle G e p) = true) as [Hc Hd'].
  { destruct e as [r|y|y|r|i| | |r]; simpl in *; try done.
    - destruct r as [data|]; [|done]. unfold Quiz.loadQuiz_resume.
      destruct (JS.truthy _); [done|]. by destruct (questions data).
    - split; [done|]. unfold Quiz.tick. simpl.
      destruct (_ <=? _)%Z; [|done]. by destruct y.
    - unfold Quiz.submit_control_enabled in Hen. by rewrite Hd in Hen.
    - split; [done|]. unfold Quiz.on_blur, Quiz.showAntiCheat.
      by destruct (Quiz.banner p).
    - split; [done|]. unfold Quiz.hide_banner. simpl.
      by destruct (Quiz.banner p). }
  destruct (IH _ Hd' Hs Hrun) as [Hc' ?]. simpl. by rewrite Hc, Hc'.
Qed.

End QuizPage.

(** ** Claims about the countdown *)

(** C4.  With a duration of 5 seconds, each of the first four timer events
    leaves one timer pending and calls nothing; the fifth sets [remaining]
    to 0, calls [submitQuiz] once (one confirmation dialog is shown) and
    schedules no further timer. *)
Theorem timer_of_five_seconds
    (G : Globals) (b : option Quiz.Banner) (qs : list Question)
    (ys : list bool) :
  DURATION G = 5%Z →
  length ys = 5 →
  let p0 := Quiz.handle G
              (Quiz.QuizFetched
                 (Fulfilled {| data_error := None; questions := Some qs |}))
              (Quiz.start G b) in
  (∀ k, k < 5 →
     ∃ pk, Quiz.run G (map Quiz.TickTimer (take k ys)) p0 = Some pk
           ∧ Quiz.remaining pk = (5 - Z.of_nat k)%Z
           ∧ Quiz.tick_timers pk = 1
           ∧ Quiz.dialogs pk = 0)
  ∧ ∃ p5, Quiz.run G (map Quiz.TickTimer ys) p0 = Some p5
          ∧ Quiz.remaining p5 = 0%Z
          ∧ Quiz.dialogs p5 = 1
          ∧ Quiz.tick_timers p5 = 0
          ∧ ∀ y, Quiz.enabled (Quiz.TickTimer y) p5 = false.
Proof.
  intros HD Hlen p0.
  destruct (loaded_page G b qs) as (_ & Hr & Ht & Hd & _). fold p0 in Hr, Ht, Hd.
  assert (∀ k, k < 5 →
     ∃ pk, Quiz.run G (map Quiz.TickTimer (take k ys)) p0 = Some pk
           ∧ Quiz.remaining pk = (5 - Z.of_nat k)%Z
           ∧ Quiz.tick_timers pk = 1
           ∧ Quiz.dialogs pk = 0) as Hbefore.
  { intros k Hk.
    destruct (countdown G (take k ys) p0) as (pk & Hrun & Hrk & Htk & Hdk & _).
    - done.
    - rewrite length_take. lia.
    - exists pk. rewrite length_take in Hrk. split_and!; [done| |done|lia].
      rewrite Hrk, Hr, HD. lia. }
  split; [done|].
  destruct (Hbefore 4) as (p4 & Hrun & Hr4 & Ht4 & Hd4); [lia|].
  destruct ys as [|y1 [|y2 [|y3 [|y4 [|y5 [|]]]]]]; try done.
  change [y1; y2; y3; y4; y5] with ([y1; y2; y3; y4] ++ [y5])%list.
  rewrite map_app, run_app. simpl take in Hrun. rewrite Hrun.
  change (Some p4 ≫= Quiz.run G (map Quiz.TickTimer [y5]))
    with (Quiz.run G [Quiz.TickTimer y5] p4).
  cbn [Quiz.run].
  assert (Quiz.enabled (Quiz.TickTimer y5) p4 = true) as ->.
  { simpl. rewrite Ht4. done. }
  rewrite tick_expiry by lia.
  eexists. split; [done|].
  destruct y5; simpl; rewrite Hr4, Ht4, Hd4; by split_and!.
Qed.

Lemma timer_of_five_seconds_sample :
  ∃ p5, Quiz.run Sample.globals
          (map Quiz.TickTimer [true; true; true; true; true]) Sample.loaded
        = Some p5
        ∧ Quiz.remaining p5 = 0%Z
        ∧ Quiz.dialogs p5 = 1
        ∧ Quiz.tick_timers p5 = 0
        ∧ ∀ y, Quiz.enabled (Quiz.TickTimer y) p5 = false.
Proof.
  exact (proj2 (timer_of_five_seconds Sample.globals None
                  [Sample.q1; Sample.q2; Sample.q3]
                  [true; true; true; true; true] eq_refl eq_refl)).
Defined.

(** ** Claims about the submission *)

(** C10.  When the confirmation is declined, [submitQuiz] returns with the
    page as it was (only the dialog has been shown): the control is not
    disabled, no answers are collected and no request is issued.  When that
    happens on the timer event of the last second, no timer is pending
    afterwards; so a whole attempt, from the arrival of the questions to the
    end of the countdown, can issue no submission at all. *)
Theorem declined_confirmation
    (G : Globals) (p : Quiz.Page) (quizId : string)
    (b : option Quiz.Banner) (qs : list Question) (n : nat) :
  Quiz.submitQuiz false quizId p = Quiz.with_dialogs (S (Quiz.dialogs p)) p
  ∧ ((Quiz.remaining p <= 1)%Z → Quiz.tick_timers p = 1 →
     let p' := Quiz.handle G (Quiz.TickTimer false) p in
     Quiz.tick_timers p' = 0
     ∧ Quiz.sent p' = Quiz.sent p
     ∧ Quiz.submitting p' = Quiz.submitting p
     ∧ Quiz.submit_disabled p' = Quiz.submit_disabled p
     ∧ Quiz.form p' = Quiz.form p
     ∧ ∀ y, Quiz.enabled (Quiz.TickTimer y) p' = false)
  ∧ (DURATION G = Z.of_nat (S n) →
     ∃ p', Quiz.run G
             (Quiz.QuizFetched
                (Fulfilled {| data_error := None; questions := Some qs |})
              :: Sample.ticks (S n))
             (Quiz.start G b) = Some p'
           ∧ Quiz.submissions p' = []
           ∧ Quiz.remaining p' = 0%Z
           ∧ Quiz.tick_timers p' = 0
           ∧ Quiz.loading p' = 0
           ∧ Quiz.submitting p' = 0
           ∧ Quiz.submit_disabled p' = false).
Proof.
  split_and!.
  - reflexivity.
  - intros Hr Ht p'. subst p'. rewrite tick_expiry by done.
    rewrite submitQuiz_declined. simpl. rewrite Ht. by split_and!.
  - intros HD.
    destruct (loaded_page G b qs) as (Hen & Hr & Ht & Hd & Hs & Hi & Hl & Hb & _).
    cbn [Quiz.run]. rewrite Hen.
    set (p0 := Quiz.handle G _ (Quiz.start G b)) in *.
    unfold Sample.ticks.
    replace (repeat (Quiz.TickTimer false) (S n))
      with (map Quiz.TickTimer (repeat false n) ++ [Quiz.TickTimer false])%list.
    2:{ change (S n) with (1 + n). rewrite Nat.add_comm, repeat_app.
        f_equal. clear. induction n as [|n IH]; [done|]. simpl. by rewrite IH. }
    rewrite run_app.
    destruct (countdown G (repeat false n) p0)
      as (p1 & Hrun & Hr1 & Ht1 & Hd1 & Hs1 & Hi1 & Hb1 & _ & Hl1).
    { done. }
    { rewrite repeat_length. lia. }
    rewrite Hrun. rewrite repeat_length in Hr1.
    change (Some p1 ≫= Quiz.run G [Quiz.TickTimer false])
      with (Quiz.run G [Quiz.TickTimer false] p1).
    cbn [Quiz.run].
    assert (Quiz.enabled (Quiz.TickTimer false) p1 = true) as ->.
    { simpl. by rewrite Ht1. }
    rewrite tick_expiry by lia. rewrite submitQuiz_declined.
    eexists. split; [done|]. unfold Quiz.submissions. simpl.
    rewrite Hs1, Hs, Ht1, Hi1, Hi, Hb1, Hb, Hr1, Hr, HD, Hl1, Hl.
    split_and!; try done. lia.
Qed.

Lemma declined_confirmation_sample :
  (let p' := Quiz.handle Sample.globals (Quiz.TickTimer false)
               Sample.last_second in
   Quiz.tick_timers p' = 0
   ∧ Quiz.sent p' = Quiz.sent Sample.last_second
   ∧ Quiz.submitting p' = Quiz.submitting Sample.last_second
   ∧ Quiz.submit_disabled p' = Quiz.submit_disabled Sample.last_second
   ∧ Quiz.form p' = Quiz.form Sample.last_second
   ∧ ∀ y, Quiz.enabled (Quiz.TickTimer y) p' = false)
  ∧ ∃ p', Quiz.run Sample.globals
          (Quiz.QuizFetched (Fulfilled Sample.quiz_data) :: Sample.ticks 5)
          (Quiz.start Sample.globals None) = Some p'
        ∧ Quiz.submissions p' = []
        ∧ Quiz.remaining p' = 0%Z
        ∧ Quiz.tick_timers p' = 0
        ∧ Quiz.loading p' = 0
        ∧ Quiz.submitting p' = 0
        ∧ Quiz.submit_disabled p' = false.
Proof.
  pose proof (declined_confirmation Sample.globals Sample.last_second "Q9"
                None [Sample.q1; Sample.q2; Sample.q3] 4) as (_ & H2 & H3).
  split.
  - apply H2; [by vm_compute | reflexivity].
  - apply H3. reflexivity.
Defined.

(** C3, as amended.  A submission triggered by a click on the submit control
    and the automatic one on the timer event of the last second both call
    [submitQuiz], which first asks for confirmation: one dialog is shown,
    and the request is issued (and the control disabled) only when the
    confirmation is accepted. *)
Theorem both_triggers_ask_for_confirmation
    (G : Globals) (p : Quiz.Page) (yes : bool) :
  (let p' := Quiz.handle G (Quiz.ClickSubmit yes) p in
   Quiz.dialogs p' = S (Quiz.dialogs p)
   ∧ Quiz.sent p'
     = (Quiz.sent p
        ++ if yes
           then [PostSubmit (QUIZ_ID G) (serialized_answers (Quiz.form p))]
           else [])%list
   ∧ Quiz.submit_disabled p' = yes || Quiz.submit_disabled p)
  ∧ ((Quiz.remaining p <= 1)%Z →
     let p' := Quiz.handle G (Quiz.TickTimer yes) p in
     Quiz.dialogs p' = S (Quiz.dialogs p)
     ∧ Quiz.sent p'
       = (Quiz.sent p
          ++ if yes
             then [PostSubmit (QUIZ_ID G) (serialized_answers (Quiz.form p))]
             else [])%list
     ∧ Quiz.submit_disabled p' = yes || Quiz.submit_disabled p).
Proof.
  split.
  - destruct yes; simpl; rewrite ?app_nil_r; by split_and!.
  - intros Hr p'. subst p'. rewrite tick_expiry by done.
    destruct yes; simpl; rewrite ?app_nil_r; by split_and!.
Qed.

(** C3, as stated, fails: the timer event of the last second shows the
    confirmation dialog, and when the student declines it nothing is
    submitted. *)
Lemma timer_expiry_asks_for_confirmation :
  ∃ p4 p5,
    Quiz.run Sample.globals (Sample.ticks 4) Sample.loaded = Some p4
    ∧ Quiz.run Sample.globals (Sample.ticks 5) Sample.loaded = Some p5
    ∧ Quiz.dialogs p4 = 0 ∧ Quiz.dialogs p5 = 1
    ∧ Quiz.remaining p5 = 0%Z
    ∧ Quiz.submissions p5 = [].
Proof.
  do 2 eexists. split; [by vm_compute|]. split; [by vm_compute|]. done.
Qed.

Lemma both_triggers_ask_for_confirmation_sample :
  ∃ p4, Quiz.run Sample.globals (Sample.ticks 4) Sample.loaded = Some p4
        ∧ Quiz.dialogs (Quiz.handle Sample.globals (Quiz.TickTimer true) p4)
          = 1
        ∧ Quiz.submissions
            (Quiz.handle Sample.globals (Quiz.TickTimer true) p4)
          = [PostSubmit "Q9"
               (serialized_answers (build_inputs
                                      [Sample.q1; Sample.q2; Sample.q3]))].
Proof.
  eexists. split; [by vm_compute|].
  match goal with
  | |- Quiz.dialogs (Quiz.handle _ _ ?p) = _ ∧ _ =>
      pose proof (proj2 (both_triggers_ask_for_confirmation
                           Sample.globals p true)) as H
  end.
  specialize (H ltac:(simpl; lia)). destruct H as (Hd & Hs & _).
  split; [exact Hd|]. unfold Quiz.submissions. rewrite Hs. reflexivity.
Defined.

(** C2, as amended.  Once its confirmation is accepted, [submitQuiz]
    disables the submit control and issues its request in the same turn of
    the event loop; when the response of the server has been processed the
    control is enabled again, whether the response says [ok] or not. *)
Theorem control_disabled_until_response
    (quizId : string) (p : Quiz.Page) (data : SubmitReply) :
  Quiz.submit_disabled (Quiz.submitQuiz true quizId p) = true
  ∧ Quiz.sent (Quiz.submitQuiz true quizId p)
    = (Quiz.sent p ++ [PostSubmit quizId (serialized_answers (Quiz.form p))])%list
  ∧ Quiz.submit_disabled (Quiz.submitQuiz_resume (Fulfilled data) p) = false.
Proof.
  split_and!; [done | done |].
  unfold Quiz.submitQuiz_resume. by destruct (submit_ok data).
Qed.

(** A submission whose fetch is rejected leaves the control as it was, that
    is disabled: the function ends at its [await]. *)
Lemma rejected_submission_keeps_control (p : Quiz.Page) :
  Quiz.submit_disabled (Quiz.submitQuiz_resume Rejected p)
  = Quiz.submit_disabled p
  ∧ Quiz.status (Quiz.submitQuiz_resume Rejected p) = Quiz.status p
  ∧ Quiz.uncaught (Quiz.submitQuiz_resume Rejected p) = S (Quiz.uncaught p).
Proof. done. Qed.

(** C2, as stated, fails: after a submission that the server accepted the
    control is enabled again, and a click on it is possible. *)
Lemma control_enabled_after_accepted_submission :
  ∃ p, Quiz.run Sample.globals
         [Quiz.ClickSubmit true; Quiz.SubmitSettled (Fulfilled Sample.accepted)]
         Sample.loaded = Some p
       ∧ Quiz.modals p = 1
       ∧ Quiz.submit_disabled p = false
       ∧ Quiz.enabled (Quiz.ClickSubmit true) p = true.
Proof. eexists. split; [by vm_compute|]. done. Qed.

(** C1, as amended.  A click whose confirmation is accepted issues one
    request and disables the submit control; until the settlement of a
    submission is processed the control stays disabled, so no further click
    on it happens.  Nothing records an accepted submission: when a response
    has been processed, accepted or not, a click is possible again. *)
Theorem clicks_wait_for_the_response
    (G : Globals) (p : Quiz.Page) (es : list Quiz.Event) (p' : Quiz.Page)
    (data : SubmitReply) (yes : bool) :
  let p1 := Quiz.handle G (Quiz.ClickSubmit true) p in
  Quiz.submissions p1
  = (Quiz.submissions p
     ++ [PostSubmit (QUIZ_ID G) (serialized_answers (Quiz.form p))])%list
  ∧ (existsb is_submit_settled es = false →
     Quiz.run G es p1 = Some p' →
     existsb is_click es = false ∧ Quiz.submit_disabled p' = true)
  ∧ Quiz.enabled (Quiz.ClickSubmit yes)
      (Quiz.handle G (Quiz.SubmitSettled (Fulfilled data)) p) = true.
Proof.
  split_and!.
  - unfold Quiz.submissions. simpl. by rewrite List.filter_app.
  - by apply disabled_until_settled.
  - simpl. unfold Quiz.submitQuiz_resume. by destruct (submit_ok data).
Qed.

Lemma clicks_wait_for_the_response_sample :
  ∃ p', Quiz.run Sample.globals [Quiz.Blur; Quiz.TickTimer true]
          (Quiz.handle Sample.globals (Quiz.ClickSubmit true) Sample.loaded)
        = Some p'
        ∧ Quiz.submit_disabled p' = true
        ∧ Quiz.run Sample.globals [Quiz.Blur; Quiz.ClickSubmit true]
            (Quiz.handle Sample.globals (Quiz.ClickSubmit true) Sample.loaded)
          = None.
Proof.
  destruct (Quiz.run Sample.globals [Quiz.Blur; Quiz.TickTimer true]
              (Quiz.handle Sample.globals (Quiz.ClickSubmit true)
                 Sample.loaded)) as [p'|] eqn:Hrun; [|by vm_compute in Hrun].
  exists p'. split; [done|]. split; [|by vm_compute].
  pose proof (clicks_wait_for_the_response Sample.globals Sample.loaded
                [Quiz.Blur; Quiz.TickTimer true] p' Sample.accepted true)
    as (_ & H & _).
  apply H; [reflexivity | exact Hrun].
Defined.

(** C1, as stated, fails.  First run: a click is confirmed and accepted by
    the server, then a second click is confirmed and accepted too.  Second
    run: in the last second a click is confirmed, the timer event follows at
    once and its dialog is confirmed; both requests are in flight together
    and both are accepted. *)
Lemma two_accepted_submissions :
  (∃ p, Quiz.run Sample.globals
          [Quiz.ClickSubmit true; Quiz.SubmitSettled (Fulfilled Sample.accepted);
           Quiz.ClickSubmit true; Quiz.SubmitSettled (Fulfilled Sample.accepted)]
          Sample.loaded = Some p
        ∧ length (Quiz.submissions p) = 2
        ∧ Quiz.modals p = 2)
  ∧ (∃ p2 p,
       Quiz.run Sample.globals [Quiz.ClickSubmit true; Quiz.TickTimer true]
         Sample.last_second = Some p2
       ∧ Quiz.submitting p2 = 2
       ∧ Quiz.run Sample.globals
           [Quiz.SubmitSettled (Fulfilled Sample.accepted);
            Quiz.SubmitSettled (Fulfilled Sample.accepted)] p2 = Some p
       ∧ length (Quiz.submissions p) = 2
       ∧ Quiz.modals p = 2).
Proof.
  split.
  - eexists. split; [by vm_compute|]. done.
  - do 2 eexists. split; [by vm_compute|]. split; [done|].
    split; [by vm_compute|]. done.
Qed.

(** ** Claims about the focus-loss report *)

(** C9.  When the window loses focus the page issues one request to the log
    endpoint, carrying the quiz identifier, the name of the student and the
    event [blur].  Neither that nor the settlement of the call, fulfilled or
    rejected, raises an error or changes anything the countdown and the
    submission read or write, and every event that could happen before can
    still happen afterwards. *)
Theorem blur_is_reported_and_harmless
    (G : Globals) (p : Quiz.Page) (r : Settled unit) (e : Quiz.Event) :
  Quiz.enabled Quiz.Blur p = true
  ∧ Quiz.sent (Quiz.handle G Quiz.Blur p)
    = (Quiz.sent p
       ++ [PostLogEvent (QUIZ_ID G) (STUDENT_NAME G) "blur"])%list
  ∧ Quiz.logging (Quiz.handle G Quiz.Blur p) = S (Quiz.logging p)
  ∧ exam_view (Quiz.handle G Quiz.Blur p) = exam_view p
  ∧ Quiz.enabled (Quiz.LogSettled r) (Quiz.handle G Quiz.Blur p) = true
  ∧ Quiz.handle G (Quiz.LogSettled r) p
    = Quiz.with_logging (pred (Quiz.logging p)) p
  ∧ exam_view (Quiz.handle G (Quiz.LogSettled r) p) = exam_view p
  ∧ Quiz.sent (Quiz.handle G (Quiz.LogSettled r) p) = Quiz.sent p
  ∧ (Quiz.enabled e p = true →
     Quiz.enabled e (Quiz.handle G Quiz.Blur p) = true)
  ∧ (Quiz.enabled e p = true → is_log_settled e = false →
     Quiz.enabled e (Quiz.handle G (Quiz.LogSettled r) p) = true).
Proof.
  assert (∀ x, exam_view (Quiz.showAntiCheat x p) = exam_view p) as Hview.
  { intros x. unfold Quiz.showAntiCheat. by destruct (Quiz.banner p). }
  split_and!; try done.
  - simpl. unfold Quiz.showAntiCheat. by destruct (Quiz.banner p).
  - simpl. unfold Quiz.showAntiCheat. by destruct (Quiz.banner p).
  - apply Hview.
  - destruct e; unfold Quiz.enabled, Quiz.submit_control_enabled; simpl;
      unfold Quiz.showAntiCheat; destruct (Quiz.banner p); simpl; try done;
      rewrite !bool_decide_eq_true; lia.
  - by destruct e.
Qed.

Lemma blur_is_reported_and_harmless_sample :
  Quiz.enabled (Quiz.TickTimer true)
    (Quiz.handle Sample.globals Quiz.Blur Sample.last_second) = true
  ∧ Quiz.enabled (Quiz.TickTimer true)
      (Quiz.handle Sample.globals (Quiz.LogSettled Rejected)
         Sample.last_second) = true.
Proof.
  pose proof (blur_is_reported_and_harmless Sample.globals Sample.last_second
                Rejected (Quiz.TickTimer true))
    as (_ & _ & _ & _ & _ & _ & _ & _ & H1 & H2).
  split; [apply H1 | apply H2]; reflexivity.
Defined.

(** ** The landing page *)

Section LandingPage.

Implicit Types (p : Landing.Page) (l : list Landing.Io).

Lemma joins_verified_snoc l (x : Landing.Io) :
  joins_verified l →
  (∀ c, x = Landing.Out (PostJoin c) → Exists (Landing.passed c) l) →
  joins_verified (l ++ [x]).
Proof.
  intros Hl Hx i c Hi. apply lookup_snoc_Some in Hi as [[Hlt Hi]|[-> ->]].
  - rewrite take_app_le by lia. by apply Hl.
  - rewrite take_app_length. by apply Hx.
Qed.

Lemma passed_snoc l (x : Landing.Io) (c : string) :
  Exists (Landing.passed c) l → Exists (Landing.passed c) (l ++ [x]).
Proof. intros H. apply Exists_app. by left. Qed.

Lemma invariant_initial (c0 t0 : bool) (code cls name : string) :
  landing_invariant (Landing.initial c0 t0 code cls name).
Proof.
  split_and!; simpl; [done | by intros n c ?%elem_of_nil |].
  by intros i c ?.
Qed.

Lemma invariant_fetch p (r : Request) :
  landing_invariant p →
  (∀ n c, r = PostRegister n c → Landing.student_form p = true) →
  (∀ c, r = PostJoin c →
        Exists (Landing.passed c) (Landing.log p)) →
  landing_invariant (Landing.fetch r p).
Proof.
  intros (H1 & H2 & H3) Hreg Hjoin. split_and!; simpl.
  - intros Hs. by apply passed_snoc, H1.
  - intros n c [Hin|Hin]%elem_of_app; [by eauto|].
    apply list_elem_of_singleton in Hin. by eauto.
  - apply joins_verified_snoc; [done|]. intros c Hc.
    injection Hc as Hc. by apply Hjoin.
Qed.

Lemma invariant_step (e : Landing.Event) p :
  landing_invariant p →
  Landing.enabled e p = true →
  landing_invariant (Landing.handle e p).
Proof.
  intros Hinv Hen. pose proof Hinv as (H1 & H2 & H3).
  apply andb_true_iff in Hen as [_ Hen].
  destruct e as [code cls name| | | | |i reply]; simpl.
  - done.
  - done.
  - done.
  - unfold Landing.checkCode. destruct (JS.falsy _); [done|].
    by apply invariant_fetch.
  - unfold Landing.joinQuiz. repeat (destruct (JS.falsy _); [done|]).
    by apply invariant_fetch.
  - destruct (Landing.awaiting p !! i) as [r|] eqn:Hr; [|done].
    set (p1 := Landing.with_log _ _).
    assert (landing_invariant p1) as Hinv1.
    { split_and!; simpl.
      - intros Hs. by apply passed_snoc, H1.
      - intros n c Hin%list_elem_of_delete_inv. eauto.
      - by apply joins_verified_snoc. }
    destruct r as [|n c|code|code|q|q a|q st ev]; simpl; try done.
    + (* the answer of [registerName] *)
      destruct reply as [rc|]; simpl; [|done].
      destruct (ok rc); simpl; [|done].
      apply invariant_fetch; [done | done |].
      intros c' Hc'. injection Hc' as <-. simpl.
      apply passed_snoc, H1, (H2 n c).
      by eapply list_elem_of_lookup_2.
    + (* the answer of the gate *)
      destruct reply as [data|]; simpl; [|done].
      destruct (ok data) eqn:Hok; simpl; [|done].
      destruct Hinv1 as (_ & H2' & H3'). split_and!; simpl.
      * intros _. apply Exists_app. right. by apply Exists_cons_hd.
      * done.
      * done.
    + (* the answer of the join endpoint *)
      destruct reply as [data|]; simpl; [|done].
      by destruct (ok data).
Qed.

Lemma invariant_run (es : list Landing.Event) p p' :
  landing_invariant p → Landing.run es p = Some p' → landing_invariant p'.
Proof.
  revert p. induction es as [|e es IH]; intros p Hinv Hrun.
  { by simplify_eq/=. }
  simpl in Hrun. destruct (Landing.enabled e p) eqn:Hen; [|done].
  eapply IH; [|done]. by apply invariant_step.
Qed.

End LandingPage.

(** ** Claims about the landing page *)

(** C8.  On the landing page, whose join control belongs to the form that
    only a successful [checkCode] displays, every request to the join
    endpoint carries an access code for which a call to the check endpoint
    had come back with [ok] true before the request was issued. *)
Theorem join_sends_a_verified_code
    (c0 t0 : bool) (code cls name : string) (es : list Landing.Event)
    (p : Landing.Page) (l1 l2 : list Landing.Io) (c : string) :
  Landing.run es (Landing.initial c0 t0 code cls name) = Some p →
  Landing.log p = (l1 ++ Landing.Out (PostJoin c) :: l2)%list →
  Exists (Landing.passed c) l1.
Proof.
  intros Hrun Hlog.
  destruct (invariant_run es _ p (invariant_initial c0 t0 code cls name) Hrun)
    as (_ & _ & Hj).
  specialize (Hj (length l1) c). rewrite Hlog in Hj.
  rewrite take_app_length in Hj. apply Hj. apply list_lookup_middle. done.
Qed.

Lemma join_sends_a_verified_code_sample :
  Exists (Landing.passed "ABC123")
    [Landing.Out (PostCheckCode "ABC123");
     Landing.Back (PostCheckCode "ABC123") (Fulfilled SampleLanding.yes);
     Landing.Out (PostRegister "Nguyen An" "10A");
     Landing.Back (PostRegister "Nguyen An" "10A")
       (Fulfilled SampleLanding.yes)].
Proof.
  destruct (Landing.run
              [Landing.Input " ABC123 " EmptyString EmptyString;
               Landing.ClickCheck;
               Landing.Settle 0 (Fulfilled SampleLanding.yes);
               Landing.Input " ABC123 " "10A" "Nguyen An";
               Landing.ClickJoin;
               Landing.Settle 0 (Fulfilled SampleLanding.yes)]
              (Landing.initial true false EmptyString EmptyString
                 EmptyString)) as [p|] eqn:Hrun; [|by vm_compute in Hrun].
  apply (join_sends_a_verified_code true false EmptyString EmptyString
           EmptyString _ p _ [] "ABC123" Hrun).
  vm_compute in Hrun. injection Hrun as <-. reflexivity.
Defined.

(** Before any check has succeeded the join control cannot be clicked. *)
Lemma join_control_hidden_at_first
    (c0 t0 : bool) (code cls name : string) :
  Landing.enabled Landing.ClickJoin (Landing.initial c0 t0 code cls name)
  = false.
Proof. reflexivity. Qed.

Section JoinQuiz.

Implicit Types (p : Landing.Page) (s : string).

Lemma falsy_empty s : s = EmptyString → JS.falsy s = true.
Proof. by intros ->. Qed.

Lemma falsy_nonempty s : s ≠ EmptyString → JS.falsy s = false.
Proof. intros Hs. by apply String.eqb_neq. Qed.

End JoinQuiz.

(** C7.  On a page on which nothing is in flight, a click on the join
    control proceeds in this order.  (a) With no class selected the status
    reads that a class must be chosen and no request is issued.  (b) With a
    class but no name the status reads that a name must be chosen and no
    request is issued.  (c) Otherwise the register request is issued first;
    when its answer is not [ok] the status shows the error of that answer
    (a fixed text when it has none) and the join endpoint is not called.
    (d) When it is [ok] the join request is issued with the retained code;
    an [ok] answer sends the browser to the quiz of the returned identifier,
    any other answer puts its error in the status. *)
Theorem joinQuiz_sequence (p : Landing.Page) (rc data : Reply) :
  Landing.location p = None →
  Landing.student_form p = true →
  Landing.awaiting p = [] →
  let register := PostRegister (Landing.nameSel p) (Landing.classSel p) in
  let join := PostJoin (Landing.currentCode p) in
  (Landing.classSel p = EmptyString →
   ∃ p', Landing.run [Landing.ClickJoin] p = Some p'
         ∧ Landing.log p' = Landing.log p
         ∧ Landing.awaiting p' = []
         ∧ Landing.joinStatus p' = "Vui lòng chọn lớp!"
         ∧ Landing.location p' = None)
  ∧ (Landing.classSel p ≠ EmptyString → Landing.nameSel p = EmptyString →
     ∃ p', Landing.run [Landing.ClickJoin] p = Some p'
           ∧ Landing.log p' = Landing.log p
           ∧ Landing.awaiting p' = []
           ∧ Landing.joinStatus p' = "Vui lòng chọn tên!"
           ∧ Landing.location p' = None)
  ∧ (Landing.classSel p ≠ EmptyString → Landing.nameSel p ≠ EmptyString →
     (∃ p', Landing.run [Landing.ClickJoin] p = Some p'
            ∧ Landing.log p' = (Landing.log p ++ [Landing.Out register])%list
            ∧ Landing.awaiting p' = [register])
     ∧ (ok rc = false →
        ∃ p', Landing.run
                [Landing.ClickJoin; Landing.Settle 0 (Fulfilled rc)] p
              = Some p'
              ∧ Landing.log p'
                = (Landing.log p
                   ++ [Landing.Out register;
                       Landing.Back register (Fulfilled rc)])%list
              ∧ Landing.awaiting p' = []
              ∧ Landing.joinStatus p' = JS.or_else (error rc) "Lỗi lưu tên"
              ∧ Landing.location p' = None)
     ∧ (ok rc = true →
        (∃ p', Landing.run
                 [Landing.ClickJoin; Landing.Settle 0 (Fulfilled rc)] p
               = Some p'
               ∧ Landing.log p'
                 = (Landing.log p
                    ++ [Landing.Out register;
                        Landing.Back register (Fulfilled rc);
                        Landing.Out join])%list
               ∧ Landing.awaiting p' = [join])
        ∧ (ok data = true →
           ∃ p', Landing.run
                   [Landing.ClickJoin; Landing.Settle 0 (Fulfilled rc);
                    Landing.Settle 0 (Fulfilled data)] p
                 = Some p'
                 ∧ Landing.log p'
                   = (Landing.log p
                      ++ [Landing.Out register;
                          Landing.Back register (Fulfilled rc);
                          Landing.Out join;
                          Landing.Back join (Fulfilled data)])%list
                 ∧ Landing.location p'
                   = Some ("/quiz/" +:+ show_string (quiz_id data)))
        ∧ (ok data = false →
           ∃ p', Landing.run
                   [Landing.ClickJoin; Landing.Settle 0 (Fulfilled rc);
                    Landing.Settle 0 (Fulfilled data)] p
                 = Some p'
                 ∧ Landing.log p'
                   = (Landing.log p
                      ++ [Landing.Out register;
                          Landing.Back register (Fulfilled rc);
                          Landing.Out join;
                          Landing.Back join (Fulfilled data)])%list
                 ∧ Landing.joinStatus p'
                   = JS.or_else (error data) "Lỗi tham gia"
                 ∧ Landing.location p' = None))).
Proof.
  intros Hloc Hform Hawait register join.
  assert (Landing.enabled Landing.ClickJoin p = true) as Hclick.
  { unfold Landing.enabled, Landing.join_control_shown.
    by rewrite Hloc, Hform. }
  split_and!.
  - intros Hcls. cbn [Landing.run]. rewrite Hclick.
    eexists. split; [done|]. unfold Landing.handle, Landing.joinQuiz.
    rewrite (falsy_empty _ Hcls). simpl. by rewrite Hawait, Hloc.
  - intros Hcls Hname. cbn [Landing.run]. rewrite Hclick.
    eexists. split; [done|]. unfold Landing.handle, Landing.joinQuiz.
    rewrite (falsy_nonempty _ Hcls), (falsy_empty _ Hname). simpl.
    by rewrite Hawait, Hloc.
  - intros Hcls Hname.
    assert (Landing.handle Landing.ClickJoin p = Landing.fetch register p)
      as Hjoin.
    { unfold Landing.handle, Landing.joinQuiz.
      by rewrite (falsy_nonempty _ Hcls), (falsy_nonempty _ Hname). }
    assert (∀ reply, Landing.enabled (Landing.Settle 0 reply)
                       (Landing.fetch register p) = true) as Hsettle.
    { intros reply. unfold Landing.enabled. simpl.
      rewrite Hloc, Hawait. done. }
    cbn [Landing.run]. rewrite Hclick, Hjoin, !Hsettle.
    assert (Landing.handle (Landing.Settle 0 (Fulfilled rc))
              (Landing.fetch register p)
            = Landing.joinQuiz_registered (Fulfilled rc)
                (Landing.with_log
                   (Landing.log p
                    ++ [Landing.Out register;
                        Landing.Back register (Fulfilled rc)])%list p))
      as Hreg.
    { unfold Landing.handle. simpl. rewrite Hawait. simpl.
      rewrite <- app_assoc. simpl.
      destruct p; simpl in *. by subst. }
    rewrite Hreg. split_and!.
    + eexists. split; [done|]. simpl. by rewrite Hawait.
    + intros Hrc. eexists. split; [done|].
      unfold Landing.joinQuiz_registered. rewrite Hrc. simpl.
      by rewrite Hawait, Hloc.
    + intros Hrc. unfold Landing.joinQuiz_registered. rewrite Hrc. simpl.
      set (p2 := Landing.fetch _ _).
      assert (Landing.enabled (Landing.Settle 0 (Fulfilled data)) p2 = true)
        as ->.
      { unfold Landing.enabled. simpl. rewrite Hloc, Hawait. done. }
      assert (Landing.log p2
              = (Landing.log p
                 ++ [Landing.Out register;
                     Landing.Back register (Fulfilled rc);
                     Landing.Out join])%list) as Hlog2.
      { simpl. by rewrite <- app_assoc. }
      assert (Landing.awaiting p2 = [join]) as Haw2.
      { simpl. by rewrite Hawait. }
      assert (Landing.location p2 = None) as Hloc2 by done.
      assert (Landing.joinStatus p2 = Landing.joinStatus p) as Hst2 by done.
      clearbody p2.
      split_and!.
      * eexists. split; [done|]. by split.
      * intros Hdata. eexists. split; [done|].
        rewrite Hawait. simpl. rewrite Hdata. simpl.
        by rewrite <- !app_assoc.
      * intros Hdata. eexists. split; [done|].
        rewrite Hawait. simpl. rewrite Hdata. simpl.
        by rewrite <- !app_assoc, Hloc2.
Qed.

Lemma joinQuiz_sequence_sample :
  (∃ p', Landing.run [Landing.ClickJoin] SampleLanding.no_class = Some p'
         ∧ Landing.log p' = Landing.log SampleLanding.no_class
         ∧ Landing.joinStatus p' = "Vui lòng chọn lớp!")
  ∧ (∃ p', Landing.run [Landing.ClickJoin] SampleLanding.no_name = Some p'
           ∧ Landing.log p' = Landing.log SampleLanding.no_name
           ∧ Landing.joinStatus p' = "Vui lòng chọn tên!")
  ∧ (∃ p', Landing.run
             [Landing.ClickJoin;
              Landing.Settle 0 (Fulfilled (SampleLanding.no "taken"))]
             SampleLanding.ready = Some p'
           ∧ Landing.awaiting p' = []
           ∧ Landing.joinStatus p' = "taken")
  ∧ (∃ p', Landing.run
             [Landing.ClickJoin;
              Landing.Settle 0 (Fulfilled SampleLanding.yes);
              Landing.Settle 0 (Fulfilled SampleLanding.joined)]
             SampleLanding.ready = Some p'
           ∧ Landing.location p' = Some "/quiz/Q9")
  ∧ (∃ p', Landing.run
             [Landing.ClickJoin;
              Landing.Settle 0 (Fulfilled SampleLanding.yes);
              Landing.Settle 0 (Fulfilled (SampleLanding.no "closed"))]
             SampleLanding.ready = Some p'
           ∧ Landing.joinStatus p' = "closed").
Proof.
  split_and!.
  - destruct (joinQuiz_sequence SampleLanding.no_class SampleLanding.yes
                SampleLanding.yes eq_refl eq_refl eq_refl) as (Ha & _).
    destruct (Ha eq_refl) as (p' & Hrun & Hlog & _ & Hst & _).
    exists p'. by split_and!.
  - destruct (joinQuiz_sequence SampleLanding.no_name SampleLanding.yes
                SampleLanding.yes eq_refl eq_refl eq_refl) as (_ & Hb & _).
    destruct (Hb ltac:(discriminate) eq_refl) as (p' & Hrun & Hlog & _ & Hst & _).
    exists p'. by split_and!.
  - destruct (joinQuiz_sequence SampleLanding.ready
                (SampleLanding.no "taken") SampleLanding.yes
                eq_refl eq_refl eq_refl) as (_ & _ & Hc).
    destruct (Hc ltac:(discriminate) ltac:(discriminate)) as (_ & Hno & _).
    destruct (Hno eq_refl) as (p' & Hrun & _ & Haw & Hst & _).
    exists p'. by split_and!.
  - destruct (joinQuiz_sequence SampleLanding.ready SampleLanding.yes
                SampleLanding.joined eq_refl eq_refl eq_refl) as (_ & _ & Hc).
    destruct (Hc ltac:(discriminate) ltac:(discriminate)) as (_ & _ & Hyes).
    destruct (Hyes eq_refl) as (_ & Hok & _).
    destruct (Hok eq_refl) as (p' & Hrun & _ & Hloc).
    exists p'. by split_and!.
  - destruct (joinQuiz_sequence SampleLanding.ready SampleLanding.yes
                (SampleLanding.no "closed") eq_refl eq_refl eq_refl)
      as (_ & _ & Hc).
    destruct (Hc ltac:(discriminate) ltac:(discriminate)) as (_ & _ & Hyes).
    destruct (Hyes eq_refl) as (_ & _ & Hno).
    destruct (Hno eq_refl) as (p' & Hrun & _ & Hst & _).
    exists p'. by split_and!.
Defined.

(** * Further properties *)

Local Open Scope nat_scope.

(** ** The quiz page over all its runs *)

Section QuizRuns.

Variable G : Globals.
Implicit Types (p : Quiz.Page) (e : Quiz.Event) (es : list Quiz.Event).

(** A property kept by every event holds along every run. *)
Lemma quiz_run_invariant (I : Quiz.Page → Prop) es p p' :
  (∀ e p, I p → Quiz.enabled e p = true → I (Quiz.handle G e p)) →
  I p → Quiz.run G es p = Some p' → I p'.
Proof.
  intros Hstep. revert p. induction es as [|e es IH]; intros p Hp Hrun.
  { by simplify_eq/=. }
  simpl in Hrun. destruct (Quiz.enabled e p) eqn:Hen; [|done].
  eapply IH; [|done]. by apply Hstep.
Qed.

Lemma showAntiCheat_view (msg : string) p :
  exam_view (Quiz.showAntiCheat msg p) = exam_view p
  ∧ Quiz.sent (Quiz.showAntiCheat msg p) = Quiz.sent p
  ∧ Quiz.logging (Quiz.showAntiCheat msg p) = Quiz.logging p.
Proof. unfold Quiz.showAntiCheat. by destruct (Quiz.banner p). Qed.

Lemma hide_banner_view p :
  exam_view (Quiz.hide_banner p) = exam_view p
  ∧ Quiz.sent (Quiz.hide_banner p) = Quiz.sent p
  ∧ Quiz.logging (Quiz.hide_banner p) = Quiz.logging p.
Proof. unfold Quiz.hide_banner. by destruct (Quiz.banner p). Qed.

(** At most one countdown runs, and it never shows more than the
    duration. *)
Lemma timer_invariant_step e p :
  Quiz.loading p + Quiz.tick_timers p ≤ 1
  ∧ (Quiz.remaining p <= DURATION G)%Z →
  Quiz.enabled e p = true →
  Quiz.loading (Quiz.handle G e p) + Quiz.tick_timers (Quiz.handle G e p) ≤ 1
  ∧ (Quiz.remaining (Quiz.handle G e p) <= DURATION G)%Z.
Proof.
  intros [Hc Hr] Hen. destruct e; quiz_unfold;
    repeat case_match; simpl; try case_bool_decide; try done; lia.
Qed.


Lemma accounting_step e p :
  Quiz.modals p + Quiz.submitting p ≤ length (Quiz.submissions p)
  ∧ length (Quiz.submissions p) ≤ Quiz.dialogs p →
  Quiz.enabled e p = true →
  Quiz.modals (Quiz.handle G e p) + Quiz.submitting (Quiz.handle G e p)
  ≤ length (Quiz.submissions (Quiz.handle G e p))
  ∧ length (Quiz.submissions (Quiz.handle G e p))
    ≤ Quiz.dialogs (Quiz.handle G e p).
Proof.
  unfold Quiz.submissions. intros [H1 H2] Hen.
  destruct e; quiz_unfold; repeat case_match; simpl;
    rewrite ?List.filter_app, ?length_app; simpl;
    try case_bool_decide; try done; lia.
Qed.

Lemma log_events_step e p :
  length (List.filter is_log_event (Quiz.sent (Quiz.handle G e p)))
  = length (List.filter is_log_event (Quiz.sent p))
    + (if is_blur e then 1 else 0).
Proof.
  destruct e; quiz_unfold; repeat case_match; simpl;
    rewrite ?List.filter_app, ?length_app; simpl; lia.
Qed.

Lemma banner_step e p :
  (banner_shown p = true → 0 < Quiz.banner_timers p) →
  Quiz.enabled e p = true →
  banner_shown (Quiz.handle G e p) = true →
  0 < Quiz.banner_timers (Quiz.handle G e p).
Proof.
  unfold banner_shown. intros Hb Hen.
  destruct e; quiz_unfold; repeat case_match; simpl in *;
    simplify_eq/=; try done; try lia; try (intros; by apply Hb).
Qed.

End QuizRuns.

(** X1.  On every run of the quiz page from its start, at most one countdown
    is alive: the fetch of the questions and the pending timer never exist
    together and never twice, and the remaining time never exceeds the
    duration. *)
Theorem one_countdown_at_most
    (G : Globals) (b : option Quiz.Banner) (es : list Quiz.Event)
    (p : Quiz.Page) :
  Quiz.run G es (Quiz.start G b) = Some p →
  Quiz.loading p + Quiz.tick_timers p ≤ 1
  ∧ (Quiz.remaining p <= DURATION G)%Z.
Proof.
  apply (quiz_run_invariant G
           (λ p, Quiz.loading p + Quiz.tick_timers p ≤ 1
                 ∧ (Quiz.remaining p <= DURATION G)%Z)).
  - apply timer_invariant_step.
  - simpl. split; lia.
Qed.

Lemma one_countdown_at_most_sample :
  Quiz.loading Sample.last_second + Quiz.tick_timers Sample.last_second ≤ 1
  ∧ (Quiz.remaining Sample.last_second <= 5)%Z.
Proof.
  apply (one_countdown_at_most Sample.globals None
           (Quiz.QuizFetched (Fulfilled Sample.quiz_data) :: Sample.ticks 4)).
  by vm_compute.
Defined.



(** X3.  On every run from its start, no submission is issued without a
    confirmation dialog, and the page never shows more result modals, plus
    submissions still in flight, than it has issued submissions. *)
Theorem submissions_are_confirmed_and_counted
    (G : Globals) (b : option Quiz.Banner) (es : list Quiz.Event)
    (p : Quiz.Page) :
  Quiz.run G es (Quiz.start G b) = Some p →
  Quiz.modals p + Quiz.submitting p ≤ length (Quiz.submissions p)
  ∧ length (Quiz.submissions p) ≤ Quiz.dialogs p.
Proof.
  apply (quiz_run_invariant G
           (λ p, Quiz.modals p + Quiz.submitting p
                 ≤ length (Quiz.submissions p)
                 ∧ length (Quiz.submissions p) ≤ Quiz.dialogs p)).
  - apply accounting_step.
  - simpl. lia.
Qed.

Lemma submissions_are_confirmed_and_counted_sample :
  ∃ p, Quiz.run Sample.globals
         [Quiz.QuizFetched (Fulfilled Sample.quiz_data);
          Quiz.ClickSubmit false; Quiz.ClickSubmit true;
          Quiz.SubmitSettled (Fulfilled Sample.accepted)]
         (Quiz.start Sample.globals None) = Some p
       ∧ Quiz.modals p + Quiz.submitting p ≤ length (Quiz.submissions p)
       ∧ length (Quiz.submissions p) ≤ Quiz.dialogs p.
Proof.
  destruct (Quiz.run Sample.globals
              [Quiz.QuizFetched (Fulfilled Sample.quiz_data);
               Quiz.ClickSubmit false; Quiz.ClickSubmit true;
               Quiz.SubmitSettled (Fulfilled Sample.accepted)]
              (Quiz.start Sample.globals None)) as [p|] eqn:Hrun;
    [|by vm_compute in Hrun].
  exists p. split; [done|].
  exact (submissions_are_confirmed_and_counted Sample.globals None _ p Hrun).
Defined.

(** X4.  Along every run of the quiz page, from any state, the number of
    reports sent to the log endpoint grows by exactly the number of times
    the window lost focus: every loss of focus is reported once, and nothing
    else is. *)
Theorem every_blur_is_reported_once
    (G : Globals) (es : list Quiz.Event) (p p' : Quiz.Page) :
  Quiz.run G es p = Some p' →
  length (List.filter is_log_event (Quiz.sent p'))
  = length (List.filter is_log_event (Quiz.sent p))
    + length (List.filter is_blur es).
Proof.
  revert p. induction es as [|e es IH]; intros p Hrun.
  { simplify_eq/=. lia. }
  simpl in Hrun. destruct (Quiz.enabled e p); [|done].
  rewrite (IH _ Hrun), log_events_step. simpl.
  destruct (is_blur e); simpl; lia.
Qed.

Lemma every_blur_is_reported_once_sample :
  ∃ p', Quiz.run Sample.globals
          [Quiz.Blur; Quiz.TickTimer true; Quiz.Blur; Quiz.LogSettled Rejected]
          Sample.loaded = Some p'
        ∧ length (List.filter is_log_event (Quiz.sent p')) = 2.
Proof.
  destruct (Quiz.run Sample.globals
              [Quiz.Blur; Quiz.TickTimer true; Quiz.Blur;
               Quiz.LogSettled Rejected] Sample.loaded) as [p'|] eqn:Hrun;
    [|by vm_compute in Hrun].
  exists p'. split; [done|].
  exact (every_blur_is_reported_once Sample.globals _ _ p' Hrun).
Defined.

(** X5.  On every run from a start at which the banner is not on display,
    a banner on display always has a timer pending that will hide it; on a
    page without banner element no such timer is ever set. *)
Theorem shown_banner_has_a_timer
    (G : Globals) (b : option Quiz.Banner) (es : list Quiz.Event)
    (p : Quiz.Page) :
  match b with Some x => Quiz.shown x = false | None => True end →
  Quiz.run G es (Quiz.start G b) = Some p →
  (banner_shown p = true → 0 < Quiz.banner_timers p)
  ∧ (b = None → Quiz.banner p = None ∧ Quiz.banner_timers p = 0).
Proof.
  intros Hb Hrun. split.
  - revert Hrun.
    apply (quiz_run_invariant G
             (λ p, banner_shown p = true → 0 < Quiz.banner_timers p)).
    + apply banner_step.
    + unfold banner_shown. simpl. destruct b; [by rewrite Hb|done].
  - intros ->. revert Hrun.
    apply (quiz_run_invariant G
             (λ p, Quiz.banner p = None ∧ Quiz.banner_timers p = 0));
      [|done].
    intros e q [Hq1 Hq2] Hen.
    destruct e; quiz_unfold; rewrite ?Hq1 in *; repeat case_match;
      simpl; try case_bool_decide; try done; lia.
Qed.

Lemma shown_banner_has_a_timer_sample :
  ∃ p, Quiz.run Sample.globals [Quiz.Blur; Quiz.Blur; Quiz.BannerTimer]
         (Quiz.start Sample.globals
            (Some {| Quiz.html := EmptyString; Quiz.shown := false |}))
       = Some p
       ∧ (banner_shown p = true → 0 < Quiz.banner_timers p).
Proof.
  destruct (Quiz.run Sample.globals [Quiz.Blur; Quiz.Blur; Quiz.BannerTimer]
              (Quiz.start Sample.globals
                 (Some {| Quiz.html := EmptyString; Quiz.shown := false |})))
    as [p|] eqn:Hrun; [|by vm_compute in Hrun].
  exists p. split; [done|].
  exact (proj1 (shown_banner_has_a_timer Sample.globals
                  (Some {| Quiz.html := EmptyString; Quiz.shown := false |})
                  _ p eq_refl Hrun)).
Defined.

(** ** The countdown for any duration *)





(** X8.  When the fetch of the questions fails (it is rejected, or its body
    carries an error, or it has no questions), no input is ever built and
    the countdown never starts: on every later run the form is empty, no
    timer is pending, [remaining] keeps the duration, and every submission
    the student still makes carries the empty answer map. *)
Theorem failed_load_starts_nothing
    (G : Globals) (b : option Quiz.Banner) (r : Settled QuizData)
    (es : list Quiz.Event) (p : Quiz.Page) :
  load_failed r →
  Quiz.run G (Quiz.QuizFetched r :: es) (Quiz.start G b) = Some p →
  Quiz.form p = []
  ∧ Quiz.tick_timers p = 0
  ∧ Quiz.remaining p = DURATION G
  ∧ Forall (empty_submission G) (Quiz.sent p).
Proof.
  intros Hr Hrun. cbn [Quiz.run] in Hrun.
  destruct (Quiz.enabled _ _); [|done].
  assert (Quiz.form p = [] ∧ Quiz.tick_timers p = 0 ∧ Quiz.loading p = 0
          ∧ Quiz.remaining p = DURATION G
          ∧ Forall (empty_submission G) (Quiz.sent p)) as (?&?&?&?&?);
    [|done].
  revert Hrun.
  apply (quiz_run_invariant G
           (λ p, Quiz.form p = [] ∧ Quiz.tick_timers p = 0
                 ∧ Quiz.loading p = 0 ∧ Quiz.remaining p = DURATION G
                 ∧ Forall (empty_submission G) (Quiz.sent p))).
  - intros e q (Hf & Ht & Hl & Hrem & Hs) Hen.
    destruct e; quiz_unfold; rewrite ?Hf, ?Ht, ?Hl in *;
      try (by case_bool_decide; [lia|]).
    + destruct yes; simpl; rewrite ?Forall_app, ?Forall_singleton; done.
    + destruct r0 as [data|]; [|done]. by destruct (submit_ok data).
    + done.
    + destruct (Quiz.banner q); simpl;
        rewrite ?Forall_app, ?Forall_singleton; done.
    + by destruct (Quiz.banner q).
    + done.
  - destruct r as [data|]; simpl in Hr; quiz_unfold.
    + destruct Hr as [->| ->].
      * simpl. split_and!; try done. by apply Forall_singleton.
      * destruct (JS.truthy _); simpl; split_and!; try done;
          by apply Forall_singleton.
    + split_and!; try done. by apply Forall_singleton.
Qed.

Lemma failed_load_starts_nothing_sample :
  ∃ p, Quiz.run Sample.globals
         [Quiz.QuizFetched
            (Fulfilled {| data_error := Some "no such quiz";
                          questions := None |});
          Quiz.Blur; Quiz.ClickSubmit true]
         (Quiz.start Sample.globals None) = Some p
       ∧ Quiz.form p = []
       ∧ Quiz.tick_timers p = 0
       ∧ Quiz.remaining p = 5%Z
       ∧ Forall (empty_submission Sample.globals) (Quiz.sent p).
Proof.
  destruct (Quiz.run Sample.globals
              [Quiz.QuizFetched
                 (Fulfilled {| data_error := Some "no such quiz";
                               questions := None |});
               Quiz.Blur; Quiz.ClickSubmit true]
              (Quiz.start Sample.globals None)) as [p|] eqn:Hrun;
    [|by vm_compute in Hrun].
  exists p. split; [done|].
  apply (failed_load_starts_nothing Sample.globals None
           (Fulfilled {| data_error := Some "no such quiz";
                         questions := None |})
           [Quiz.Blur; Quiz.ClickSubmit true] p);
    [left; reflexivity | exact Hrun].
Defined.

(** ** After a submission has settled *)

(** X9.  When the fetch of the only submission in flight is rejected after
    the countdown has ended, the page can never submit again: on every later
    run the submit control stays disabled, no click on it happens and no
    further submission is issued. *)
Theorem no_retry_after_network_failure
    (G : Globals) (es : list Quiz.Event) (p p' : Quiz.Page) :
  Quiz.submit_disabled p = true →
  Quiz.submitting p = 1 →
  Quiz.tick_timers p = 0 →
  Quiz.loading p = 0 →
  Quiz.run G (Quiz.SubmitSettled Rejected :: es) p = Some p' →
  Quiz.submit_disabled p' = true
  ∧ Quiz.submissions p' = Quiz.submissions p
  ∧ existsb is_click es = false.
Proof.
  intros Hd Hs Ht Hl Hrun. cbn [Quiz.run] in Hrun.
  destruct (Quiz.enabled _ _); [|done].
  set (p1 := Quiz.handle G (Quiz.SubmitSettled Rejected) p) in *.
  assert (Quiz.submit_disabled p1 = true ∧ Quiz.submitting p1 = 0
          ∧ Quiz.tick_timers p1 = 0 ∧ Quiz.loading p1 = 0) as Hp1.
  { subst p1. quiz_unfold. by rewrite Hd, Hs, Ht, Hl. }
  assert (Quiz.submissions p1 = Quiz.submissions p) as <- by done.
  clearbody p1. clear Hd Hs Ht Hl p.
  revert p1 Hp1 Hrun. induction es as [|e es IH]; intros p (Hd & Hs & Ht & Hl) Hrun.
  { by simplify_eq/=. }
  cbn [Quiz.run] in Hrun. destruct (Quiz.enabled e p) eqn:Hen; [|done].
  assert (is_click e = false
          ∧ (Quiz.submit_disabled (Quiz.handle G e p) = true
             ∧ Quiz.submitting (Quiz.handle G e p) = 0
             ∧ Quiz.tick_timers (Quiz.handle G e p) = 0
             ∧ Quiz.loading (Quiz.handle G e p) = 0)
          ∧ Quiz.submissions (Quiz.handle G e p) = Quiz.submissions p)
    as (Hc & Hq & Hsub).
  { unfold Quiz.submissions.
    destruct e; quiz_unfold; rewrite ?Hd, ?Hs, ?Ht, ?Hl in *;
      try (by case_bool_decide; [lia|]); try done.
    - destruct (Quiz.banner p); simpl; rewrite ?List.filter_app; simpl;
        by rewrite ?app_nil_r.
    - by destruct (Quiz.banner p). }
  destruct (IH _ Hq Hrun) as (? & Hsub' & Hc').
  simpl. rewrite Hc, Hc', Hsub', Hsub. done.
Qed.

Lemma no_retry_after_network_failure_sample :
  ∃ p p',
    Quiz.run Sample.globals
      (Quiz.QuizFetched (Fulfilled Sample.quiz_data)
       :: Sample.ticks 5 ++ [Quiz.ClickSubmit true])%list
      (Quiz.start Sample.globals None) = Some p
    ∧ Quiz.run Sample.globals
        [Quiz.SubmitSettled Rejected; Quiz.Blur; Quiz.ClickInput 1] p
      = Some p'
    ∧ Quiz.submit_disabled p' = true
    ∧ length (Quiz.submissions p') = 1.
Proof.
  destruct (Quiz.run Sample.globals
              (Quiz.QuizFetched (Fulfilled Sample.quiz_data)
               :: Sample.ticks 5 ++ [Quiz.ClickSubmit true])%list
              (Quiz.start Sample.globals None)) as [p|] eqn:Hp;
    [|by vm_compute in Hp].
  destruct (Quiz.run Sample.globals
              [Quiz.SubmitSettled Rejected; Quiz.Blur; Quiz.ClickInput 1] p)
    as [p'|] eqn:Hp'.
  2:{ vm_compute in Hp. injection Hp as <-. by vm_compute in Hp'. }
  exists p, p'. split; [done|]. split; [done|].
  assert (Quiz.submit_disabled p = true ∧ Quiz.submitting p = 1
          ∧ Quiz.tick_timers p = 0 ∧ Quiz.loading p = 0
          ∧ length (Quiz.submissions p) = 1) as (H1 & H2 & H3 & H4 & H5).
  { vm_compute in Hp. injection Hp as <-. by vm_compute. }
  destruct (no_retry_after_network_failure Sample.globals
              [Quiz.Blur; Quiz.ClickInput 1] p p' H1 H2 H3 H4 Hp')
    as (Hd & Hs & _).
  split; [exact Hd|]. by rewrite Hs.
Defined.

(** X10.  A submission that the server refuses leaves the attempt open: the
    status shows the error of the answer (a fixed text when it has none) as
    a failure, no result modal is added, and the next confirmed click issues
    a new submission, which carries the answers as they are in the form at
    that moment. *)
Theorem refused_submission_can_be_retried
    (G : Globals) (p : Quiz.Page) (data : SubmitReply) (i : nat) :
  0 < Quiz.submitting p →
  submit_ok data = false →
  ∃ p1 p2,
    Quiz.run G [Quiz.SubmitSettled (Fulfilled data)] p = Some p1
    ∧ Quiz.status p1
      = (JS.or_else (submit_error data) "Lỗi nộp bài", "text-danger")
    ∧ Quiz.modals p1 = Quiz.modals p
    ∧ Quiz.run G [Quiz.ClickInput i; Quiz.ClickSubmit true] p1 = Some p2
    ∧ Quiz.sent p2
      = (Quiz.sent p
         ++ [PostSubmit (QUIZ_ID G)
               (serialized_answers
                  (Quiz.click_input i (Quiz.form p)))])%list.
Proof.
  intros Hs Hok. cbn [Quiz.run].
  assert (Quiz.enabled (Quiz.SubmitSettled (Fulfilled data)) p = true) as ->.
  { simpl. by apply bool_decide_eq_true_2. }
  eexists _, _. split; [done|]. quiz_unfold. by rewrite Hok.
Qed.

Lemma refused_submission_can_be_retried_sample :
  ∃ p1 p2,
    Quiz.run Sample.globals
      [Quiz.SubmitSettled
         (Fulfilled {| submit_ok := false; score := None; total := None;
                       submit_error := None |})]
      (Quiz.handle Sample.globals (Quiz.ClickSubmit true) Sample.loaded)
    = Some p1
    ∧ Quiz.status p1 = ("Lỗi nộp bài", "text-danger")
    ∧ Quiz.run Sample.globals [Quiz.ClickInput 1; Quiz.ClickSubmit true] p1
      = Some p2
    ∧ length (Quiz.submissions p2) = 2.
Proof.
  destruct (refused_submission_can_be_retried Sample.globals
              (Quiz.handle Sample.globals (Quiz.ClickSubmit true)
                 Sample.loaded)
              {| submit_ok := false; score := None; total := None;
                 submit_error := None |} 1
              ltac:(by vm_compute) eq_refl)
    as (p1 & p2 & H1 & H2 & _ & H3 & H4).
  exists p1, p2. split_and!; [done | done | done |].
  unfold Quiz.submissions. rewrite H4. by vm_compute.
Defined.

(** ** The display of the countdown *)

(** X11.  For every remaining time from 0 up to 99 minutes 59 seconds the
    display has exactly five characters, with the colon in the middle. *)
Theorem clock_has_five_characters (r : Z) :
  (0 <= r < 6000)%Z →
  String.length (Quiz.clock r) = 5
  ∧ String.get 2 (Quiz.clock r) = Some ":"%char.
Proof.
  intros Hr.
  assert (forallb
            (λ r, Nat.eqb (String.length (Quiz.clock r)) 5
                  && bool_decide (String.get 2 (Quiz.clock r)
                                  = Some ":"%char))
            (seqZ 0 6000) = true) as Hall by (by vm_compute).
  rewrite forallb_forall in Hall.
  specialize (Hall r). rewrite <- list_elem_of_In, elem_of_seqZ in Hall.
  specialize (Hall ltac:(lia)).
  apply andb_true_iff in Hall as [H1 H2].
  split; [by apply Nat.eqb_eq | by apply bool_decide_eq_true in H2].
Qed.

Lemma clock_has_five_characters_sample :
  String.length (Quiz.clock 65) = 5
  ∧ String.get 2 (Quiz.clock 65) = Some ":"%char.
Proof. apply clock_has_five_characters. lia. Defined.

(** ** Answer collection in general *)

(** X12.  For any list of inputs, the object [answers] built by [submitQuiz]
    has a key for every name under which some input is filed (its name
    without the first pair of brackets), checked or not, and no other key;
    the value of a key lists the values of the checked inputs filed under
    it, in document order. *)
Theorem collected_answers_by_key (ins : list Input) (n : string) :
  JS.get n (collect_answers ins)
  = if existsb (fun inp => String.eqb (clean inp) n) ins
    then Some (picked n ins)
    else None.
Proof. unfold collect_answers. by rewrite collect_get. Qed.

Lemma split_after_q (s : string) :
  JS.split "_" ("q_" +:+ s) = "q" :: JS.split "_" s.
Proof. reflexivity. Qed.

Lemma split_not_nil (c : ascii) (s : string) : JS.split c s ≠ [].
Proof.
  induction s as [|a t IH]; [done|]. simpl.
  destruct (Ascii.eqb a c); [done|]. by destruct (JS.split c t).
Qed.

Lemma qid_of_key_head (s : string) : qid_of_key ("q_" +:+ s) = id_head s.
Proof.
  unfold qid_of_key, id_head. rewrite split_after_q. simpl.
  pose proof (split_not_nil "_" s). by destruct (JS.split "_" s).
Qed.

Lemma split_at_underscore (a b : string) :
  JS.includes "_" a = false →
  JS.split "_" (a +:+ String "_" b) = a :: JS.split "_" b.
Proof.
  induction a as [|c t IH]; intros Ha; [done|].
  cbn [JS.includes] in Ha. apply orb_false_elim in Ha as [Hp Ha].
  rewrite startsWith_cons, startsWith_nil, andb_true_r in Hp.
  apply bool_decide_eq_false in Hp.
  rewrite append_cons. cbn [JS.split]. rewrite IH by done.
  by destruct (Ascii.eqb_spec c "_") as [->|_].
Qed.

(** X13.  The question id that [submitQuiz] recovers from the name of an
    input is the id up to its first underscore: anything after it is
    dropped, and an id without underscore is recovered whole. *)
Theorem recovered_id_stops_at_underscore (a b : string) :
  JS.includes "_" a = false →
  qid_of_key ("q_" +:+ a +:+ String "_" b) = a
  ∧ qid_of_key ("q_" +:+ a) = a.
Proof.
  intros Ha. rewrite !qid_of_key_head. unfold id_head.
  rewrite split_at_underscore by done. rewrite (split_absent a) by done.
  by split.
Qed.

Lemma recovered_id_stops_at_underscore_sample :
  qid_of_key "q_12_3_x" = "12" ∧ qid_of_key "q_12" = "12".
Proof. apply (recovered_id_stops_at_underscore "12" "3_x"). reflexivity. Defined.

Lemma serialized_keys_are_id_heads_aux
    (qs : list Question) (form : list Input) (x : string) :
  rendered qs form →
  (∀ q, q ∈ qs → JS.includes "[]" (id q) = false) →
  is_Some (serialized_answers form !! x) →
  ∃ q, q ∈ qs ∧ x = id_head (id q).
Proof.
  intros Hform Hb.
  unfold serialized_answers, format_answers.
  rewrite (rendered_answer_inputs qs form Hform).
  intros [Hs|(k & Hk & <-)]%format_fold_dom.
  { rewrite lookup_empty in Hs. by destruct Hs. }
  apply collect_answers_keys in Hk as (inp & Hin & <-).
  apply (rendered_elem qs form Hform) in Hin as (q & _ & Hq & _ & Hn & _).
  exists q. split; [done|]. unfold clean.
  by rewrite Hn, clean_input_name, qid_of_key_head by (by apply Hb).
Qed.

(** X14.  For a form built from a question set whose ids contain no pair of
    brackets, every key of the serialized answers is the id of some question
    cut at its first underscore. *)
Theorem serialized_keys_are_id_heads
    (qs : list Question) (form : list Input) (x : string) :
  rendered qs form →
  (∀ q, q ∈ qs → JS.includes "[]" (id q) = false) →
  is_Some (serialized_answers form !! x) →
  ∃ q, q ∈ qs ∧ x = id_head (id q).
Proof. apply serialized_keys_are_id_heads_aux. Qed.

Lemma serialized_keys_are_id_heads_sample :
  ∃ q, q ∈ [Sample.q_a_b] ∧ "a" = id_head (id q).
Proof.
  apply (serialized_keys_are_id_heads [Sample.q_a_b]
           (build_inputs [Sample.q_a_b]) "a").
  - reflexivity.
  - intros q Hq. apply elem_of_cons in Hq as [->|Hq]; [reflexivity|].
    by apply elem_of_nil in Hq.
  - exists []. by vm_compute.
Defined.

(** X15.  For a form built from a question set whose ids contain neither an
    underscore nor a pair of brackets, every key of the serialized answers
    is the id of a question of the set. *)
Theorem plain_ids_give_question_keys
    (qs : list Question) (form : list Input) (x : string) :
  rendered qs form →
  (∀ q, q ∈ qs → plain_id (id q)) →
  is_Some (serialized_answers form !! x) →
  ∃ q, q ∈ qs ∧ id q = x.
Proof.
  intros Hform Hplain Hx.
  destruct (serialized_keys_are_id_heads_aux qs form x Hform) as (q & Hq & ->).
  - intros q Hq. by destruct (Hplain q Hq).
  - done.
  - exists q. split; [done|]. destruct (Hplain q Hq) as [Hu _].
    unfold id_head. by rewrite split_absent.
Qed.

Lemma plain_ids_give_question_keys_sample :
  ∃ q, q ∈ [Sample.q1; Sample.q2; Sample.q3] ∧ id q = "2".
Proof.
  apply (plain_ids_give_question_keys [Sample.q1; Sample.q2; Sample.q3]
           Sample.answered "2").
  - reflexivity.
  - intros q Hq.
    repeat (apply elem_of_cons in Hq as [->|Hq]; [by split|]).
    by apply elem_of_nil in Hq.
  - exists ["A"; "C"]. by vm_compute.
Defined.

(** X16.  An input whose name does not start with [q_] plays no part in the
    submission: with or without it, anywhere in the document, the serialized
    answers are the same. *)
Theorem other_inputs_are_ignored (doc1 doc2 : list Input) (inp : Input) :
  JS.startsWith "q_" (name inp) = false →
  serialized_answers (doc1 ++ inp :: doc2) = serialized_answers (doc1 ++ doc2).
Proof.
  intros Hn. unfold serialized_answers, answer_inputs.
  rewrite !List.filter_app. simpl. by rewrite Hn.
Qed.

Lemma other_inputs_are_ignored_sample :
  serialized_answers
    (Sample.answered
     ++ {| type := checkbox; name := "remember"; value := "on";
           checked := true |} :: [])
  = serialized_answers (Sample.answered ++ []).
Proof. apply other_inputs_are_ignored. reflexivity. Defined.

(** ** Radio buttons *)

Section Radio.

Implicit Types (f : list Input) (inp : Input) (n : string).

Lemma filter_insert_parts {A} (P : A → bool) (l : list A) (i : nat) (x y : A) :
  l !! i = Some x →
  List.filter P (<[i:=y]> l)
  = (List.filter P (take i l) ++ (if P y then [y] else [])
     ++ List.filter P (drop (S i) l))%list
  ∧ List.filter P l
    = (List.filter P (take i l) ++ (if P x then [x] else [])
       ++ List.filter P (drop (S i) l))%list.
Proof.
  intros Hi. split.
  - rewrite insert_take_drop by (by eapply lookup_lt_Some).
    rewrite List.filter_app. simpl. by destruct (P y).
  - rewrite <- (take_drop_middle l i x Hi) at 1.
    rewrite List.filter_app. simpl. by destruct (P x).
Qed.

Lemma radio_marks_unchecked n f :
  (∀ inp, inp ∈ f → checked inp = false) → radio_marks n f = [].
Proof.
  intros Hf. unfold radio_marks. induction f as [|inp f IH]; [done|].
  simpl. rewrite (Hf inp) by (by left). simpl.
  apply IH. intros x Hx. apply Hf. by right.
Qed.

Lemma build_inputs_unchecked (qs : list Question) inp :
  inp ∈ build_inputs qs → checked inp = false.
Proof.
  intros Hin%list_elem_of_In. apply in_flat_map in Hin as (q & _ & Hin).
  by apply in_map_iff in Hin as (opt & <- & _).
Qed.

Lemma mark_unchecked_in_group n inp :
  checked (Quiz.uncheck_group n inp)
  && match type (Quiz.uncheck_group n inp) with
     | radio => true
     | checkbox => false
     end
  && String.eqb (name (Quiz.uncheck_group n inp)) n = false.
Proof.
  unfold Quiz.uncheck_group. destruct (type inp) eqn:Ht.
  - by rewrite Ht, andb_false_r.
  - destruct (String.eqb (name inp) n) eqn:Hn; simpl; [done|].
    by rewrite Hn, andb_false_r.
Qed.

Lemma mark_kept_in_other_group n m inp :
  m ≠ n →
  checked (Quiz.uncheck_group m inp)
  && match type (Quiz.uncheck_group m inp) with
     | radio => true
     | checkbox => false
     end
  && String.eqb (name (Quiz.uncheck_group m inp)) n
  = checked inp
    && match type inp with radio => true | checkbox => false end
    && String.eqb (name inp) n.
Proof.
  intros Hmn. unfold Quiz.uncheck_group. destruct (type inp) eqn:Ht.
  - by rewrite Ht.
  - destruct (String.eqb_spec (name inp) m) as [Hn|Hn]; simpl.
    + assert (String.eqb (name inp) n = false) as ->.
      { apply String.eqb_neq. congruence. }
      by rewrite !andb_false_r.
    + by rewrite Ht.
Qed.

Lemma radio_marks_same_group n f :
  radio_marks n (map (Quiz.uncheck_group n) f) = [].
Proof.
  unfold radio_marks. induction f as [|inp f IH]; [done|]. simpl.
  by rewrite IH, mark_unchecked_in_group.
Qed.

Lemma radio_marks_other_group n m f :
  m ≠ n → radio_marks n (map (Quiz.uncheck_group m) f) = radio_marks n f.
Proof.
  intros Hmn. unfold radio_marks. induction f as [|inp f IH]; [done|].
  simpl. rewrite IH, mark_kept_in_other_group by done.
  destruct (checked inp && _ && String.eqb (name inp) n) eqn:HP; [|done].
  f_equal. unfold Quiz.uncheck_group.
  destruct (type inp) eqn:Ht; [done|].
  destruct (String.eqb_spec (name inp) m) as [Hn|Hn]; [|done].
  apply andb_true_iff in HP as [_ HP%String.eqb_eq]. congruence.
Qed.

Lemma click_keeps_radio_groups (i : nat) f :
  (∀ n, length (radio_marks n f) ≤ 1) →
  ∀ n, length (radio_marks n (Quiz.click_input i f)) ≤ 1.
Proof.
  intros Hf n. unfold Quiz.click_input.
  destruct (f !! i) as [inp|] eqn:Hi; [|done].
  destruct (type inp) eqn:Ht.
  - (* a checkbox *)
    unfold radio_marks.
    destruct (filter_insert_parts
                (λ x, checked x
                      && match type x with radio => true | checkbox => false end
                      && String.eqb (name x) n) f i inp
                {| type := checkbox; name := name inp; value := value inp;
                   checked := negb (checked inp) |} Hi) as [-> Hold].
    simpl. rewrite andb_false_r. simpl.
    specialize (Hf n). unfold radio_marks in Hf. rewrite Hold in Hf.
    rewrite Ht, andb_false_r in Hf. done.
  - (* a radio button *)
    assert (map (Quiz.uncheck_group (name inp)) f !! i
            = Some (Quiz.uncheck_group (name inp) inp)) as Hi'.
    { by rewrite list_lookup_fmap, Hi. }
    unfold radio_marks.
    destruct (filter_insert_parts
                (λ x, checked x
                      && match type x with radio => true | checkbox => false end
                      && String.eqb (name x) n)
                (map (Quiz.uncheck_group (name inp)) f) i _
                {| type := radio; name := name inp; value := value inp;
                   checked := true |} Hi') as [-> Hold].
    fold (radio_marks n (map (Quiz.uncheck_group (name inp)) f)) in Hold.
    destruct (decide (name inp = n)) as [<-|Hne].
    + rewrite radio_marks_same_group in Hold. symmetry in Hold.
      apply app_eq_nil in Hold as [-> Hold].
      apply app_eq_nil in Hold as [_ ->].
      simpl. rewrite String.eqb_refl. simpl. lia.
    + rewrite radio_marks_other_group in Hold by done.
      assert (String.eqb (name inp) n = false) as Hn
        by (by apply String.eqb_neq).
      simpl. rewrite Hn. simpl.
      specialize (Hf n). rewrite Hold in Hf.
      assert (name (Quiz.uncheck_group (name inp) inp) = name inp) as Hnm.
      { unfold Quiz.uncheck_group. rewrite Ht.
        by destruct (String.eqb (name inp) (name inp)). }
      rewrite Hnm, Hn, andb_false_r in Hf. done.
Qed.

Lemma uncheck_click (i : nat) f :
  map uncheck (Quiz.click_input i f) = map uncheck f.
Proof.
  unfold Quiz.click_input. destruct (f !! i) as [inp|] eqn:Hi; [|done].
  destruct (type inp) eqn:Ht.
  - change (map uncheck ?l) with (uncheck <$> l).
    rewrite list_fmap_insert. apply list_insert_id.
    rewrite list_lookup_fmap, Hi. simpl. unfold uncheck. simpl.
    by rewrite Ht.
  - change (map uncheck ?l) with (uncheck <$> l).
    rewrite list_fmap_insert.
    assert (uncheck <$> map (Quiz.uncheck_group (name inp)) f = uncheck <$> f)
      as ->.
    { clear. induction f as [|x f IH]; [done|]. simpl. f_equal; [|done].
      unfold Quiz.uncheck_group.
      destruct (type x) eqn:Hx; [done|].
      destruct (String.eqb (name x) (name inp)); [|done].
      unfold uncheck. simpl. by rewrite Hx. }
    apply list_insert_id. rewrite list_lookup_fmap, Hi. simpl.
    unfold uncheck. simpl. by rewrite Ht.
Qed.

End Radio.

Lemma radio_marks_on_runs
    (G : Globals) (b : option Quiz.Banner) (es : list Quiz.Event)
    (p : Quiz.Page) (n : string) :
  Quiz.run G es (Quiz.start G b) = Some p →
  length (radio_marks n (Quiz.form p)) ≤ 1.
Proof.
  intros Hrun. revert n. revert Hrun.
  apply (quiz_run_invariant G
           (λ p, ∀ n, length (radio_marks n (Quiz.form p)) ≤ 1)).
  - intros e q Hq Hen. destruct e; quiz_unfold; try done.
    + destruct r as [data|]; [|done].
      destruct (JS.truthy _); [done|].
      destruct (questions data) as [qs|]; [|done]. simpl. intros n.
      unfold radio_marks. rewrite List.filter_app, length_app.
      fold (radio_marks n (Quiz.form q)).
      fold (radio_marks n (build_inputs qs)).
      rewrite (radio_marks_unchecked n (build_inputs qs))
        by apply build_inputs_unchecked.
      specialize (Hq n). simpl. lia.
    + by repeat case_match.
    + by destruct yes.
    + destruct r as [data|]; [|done]. by destruct (submit_ok data).
    + by apply click_keeps_radio_groups.
    + by destruct (Quiz.banner q).
    + by destruct (Quiz.banner q).
  - intros n. simpl. lia.
Qed.

(** X17.  On every run of the quiz page from its start, among the radio
    buttons of one name at most one is checked. *)
Theorem radio_groups_hold_one_mark
    (G : Globals) (b : option Quiz.Banner) (es : list Quiz.Event)
    (p : Quiz.Page) (n : string) :
  Quiz.run G es (Quiz.start G b) = Some p →
  length (radio_marks n (Quiz.form p)) ≤ 1.
Proof. apply radio_marks_on_runs. Qed.

Lemma radio_groups_hold_one_mark_sample :
  ∃ p, Quiz.run Sample.globals
         [Quiz.QuizFetched (Fulfilled Sample.quiz_data);
          Quiz.ClickInput 0; Quiz.ClickInput 2; Quiz.ClickInput 1]
         (Quiz.start Sample.globals None) = Some p
       ∧ map value (radio_marks "q_1" (Quiz.form p)) = ["B"]
       ∧ length (radio_marks "q_1" (Quiz.form p)) ≤ 1.
Proof.
  destruct (Quiz.run Sample.globals
              [Quiz.QuizFetched (Fulfilled Sample.quiz_data);
               Quiz.ClickInput 0; Quiz.ClickInput 2; Quiz.ClickInput 1]
              (Quiz.start Sample.globals None)) as [p|] eqn:Hrun;
    [|by vm_compute in Hrun].
  exists p. split; [done|]. split.
  - vm_compute in Hrun. injection Hrun as <-. reflexivity.
  - exact (radio_groups_hold_one_mark Sample.globals None _ p "q_1" Hrun).
Defined.

Section SingleSelect.

Variables (qs : list Question).
Hypothesis Hplain : ∀ q, q ∈ qs → plain_id (id q).
Hypothesis Hids : NoDup (map id qs).

Lemma build_inputs_rendered : rendered qs (build_inputs qs).
Proof.
  unfold rendered. clear. induction (build_inputs qs) as [|inp l IH] eqn:Hl.
  { done. }
  assert (∀ x, x ∈ inp :: l → checked x = false) as Hall.
  { intros x Hx. rewrite <- Hl in Hx. by eapply build_inputs_unchecked. }
  clear Hl IH. induction (inp :: l) as [|x l' IH]; [done|].
  simpl. f_equal.
  - destruct x as [t nm v c]. unfold uncheck. simpl.
    f_equal. symmetry. apply (Hall {| type := t; name := nm; value := v;
                                      checked := c |}). by left.
  - apply IH. intros y Hy. apply Hall. by right.
Qed.

Lemma rendered_radio (form : list Input) (q : Question) (inp : Input) :
  rendered qs form → q ∈ qs → multi q = false →
  inp ∈ form → name inp = input_name q → type inp = radio.
Proof.
  intros Hform Hq Hm Hin Hn.
  assert (In (uncheck inp) (build_inputs qs)) as Hu.
  { rewrite <- Hform. apply in_map. by apply list_elem_of_In. }
  apply in_flat_map in Hu as (q' & Hq' & Hu).
  apply in_map_iff in Hu as (opt & Heq & Hopt).
  apply list_elem_of_In in Hq'.
  assert (name inp = input_name q') as Hn'.
  { change (name inp) with (name (uncheck inp)). by rewrite <- Heq. }
  assert (q' = q) as ->.
  { apply (rendered_same_question qs Hids q q' Hq Hq').
    assert ("q_" +:+ id q' = "q_" +:+ id q) as Hid; [|by simplify_eq].
    destruct (Hplain q Hq) as [_ Hb], (Hplain q' Hq') as [_ Hb'].
    rewrite <- !clean_input_name by done. by rewrite <- Hn', Hn. }
  change (type inp) with (type (uncheck inp)). rewrite <- Heq. simpl.
  by rewrite Hm.
Qed.

Lemma chosen_radio_marks (form : list Input) (q : Question) :
  rendered qs form → q ∈ qs → multi q = false →
  chosen q form = map value (radio_marks (input_name q) form).
Proof.
  intros Hform Hq Hm. unfold chosen, radio_marks. f_equal.
  apply filter_ext_in. intros inp Hin%list_elem_of_In.
  destruct (String.eqb_spec (name inp) (input_name q)) as [Hn|Hn].
  - by rewrite (rendered_radio form q inp Hform Hq Hm Hin Hn), !andb_true_r.
  - by rewrite !andb_false_r.
Qed.

Lemma rendered_on_runs
    (G : Globals) (b : option Quiz.Banner) (es : list Quiz.Event)
    (p : Quiz.Page) :
  Quiz.run G
    (Quiz.QuizFetched
       (Fulfilled {| data_error := None; questions := Some qs |}) :: es)
    (Quiz.start G b) = Some p →
  rendered qs (Quiz.form p).
Proof.
  intros Hrun. cbn [Quiz.run] in Hrun. destruct (Quiz.enabled _ _); [|done].
  assert (rendered qs (Quiz.form p) ∧ Quiz.loading p = 0) as [? _]; [|done].
  revert Hrun.
  apply (quiz_run_invariant G
           (λ p, rendered qs (Quiz.form p) ∧ Quiz.loading p = 0)).
  - intros e q [Hq Hl] Hen. destruct e; quiz_unfold; try done.
    + rewrite Hl in Hen. by case_bool_decide; [lia|].
    + by repeat case_match.
    + by destruct yes.
    + destruct r as [data|]; [|done]. by destruct (submit_ok data).
    + split; [|done]. unfold rendered. by rewrite uncheck_click.
    + by destruct (Quiz.banner q).
    + by destruct (Quiz.banner q).
  - split; [|done]. simpl. apply build_inputs_rendered.
Qed.

End SingleSelect.

(** X18.  On every run of the quiz page whose questions have distinct ids
    without underscore and without pair of brackets, the answers that a
    submission would carry for a single-select question with at least one
    option are a list of at most one label. *)
Theorem single_select_sends_at_most_one_label
    (G : Globals) (b : option Quiz.Banner) (qs : list Question)
    (es : list Quiz.Event) (p : Quiz.Page) (q : Question) :
  (∀ q', q' ∈ qs → plain_id (id q')) →
  NoDup (map id qs) →
  q ∈ qs →
  options q ≠ [] →
  multi q = false →
  Quiz.run G
    (Quiz.QuizFetched
       (Fulfilled {| data_error := None; questions := Some qs |}) :: es)
    (Quiz.start G b) = Some p →
  ∃ vs, serialized_answers (Quiz.form p) !! id q = Some vs ∧ length vs ≤ 1.
Proof.
  intros Hplain Hids Hq Hopts Hm Hrun.
  pose proof (rendered_on_runs qs G b es p Hrun) as Hform.
  exists (chosen q (Quiz.form p)). split.
  - by apply (rendered_lookup qs).
  - rewrite (chosen_radio_marks qs Hplain Hids _ q Hform Hq Hm).
    rewrite length_map. eapply radio_marks_on_runs. exact Hrun.
Qed.

Lemma single_select_sends_at_most_one_label_sample :
  ∃ p vs,
    Quiz.run Sample.globals
      [Quiz.QuizFetched
         (Fulfilled {| data_error := None;
                       questions := Some [Sample.q1; Sample.q2; Sample.q3] |});
       Quiz.ClickInput 0; Quiz.ClickInput 2]
      (Quiz.start Sample.globals None) = Some p
    ∧ serialized_answers (Quiz.form p) !! "1" = Some vs
    ∧ length vs ≤ 1.
Proof.
  destruct (Quiz.run Sample.globals
              [Quiz.QuizFetched
                 (Fulfilled {| data_error := None;
                               questions := Some [Sample.q1; Sample.q2;
                                                  Sample.q3] |});
               Quiz.ClickInput 0; Quiz.ClickInput 2]
              (Quiz.start Sample.globals None)) as [p|] eqn:Hrun;
    [|by vm_compute in Hrun].
  destruct (single_select_sends_at_most_one_label Sample.globals None
              [Sample.q1; Sample.q2; Sample.q3]
              [Quiz.ClickInput 0; Quiz.ClickInput 2] p Sample.q1)
    as (vs & Hvs).
  - intros q' Hq'.
    repeat (apply elem_of_cons in Hq' as [->|Hq']; [by split|]).
    by apply elem_of_nil in Hq'.
  - by apply (bool_decide_unpack (NoDup _)).
  - by left.
  - done.
  - reflexivity.
  - exact Hrun.
  - exists p, vs. by split.
Defined.

(** ** The landing page over all its runs *)

Section LandingRuns.

Implicit Types (p : Landing.Page) (e : Landing.Event) (s : string).

Lemma landing_run_invariant (I : Landing.Page → Prop)
    (es : list Landing.Event) p p' :
  (∀ e p, I p → Landing.enabled e p = true → I (Landing.handle e p)) →
  I p → Landing.run es p = Some p' → I p'.
Proof.
  intros Hstep. revert p. induction es as [|e es IH]; intros p Hp Hrun.
  { by simplify_eq/=. }
  simpl in Hrun. destruct (Landing.enabled e p) eqn:Hen; [|done].
  eapply IH; [|done]. by apply Hstep.
Qed.






End LandingRuns.





Section LandingInvariants.

Implicit Types (p : Landing.Page) (e : Landing.Event) (l : list Landing.Io).

(** The student form is displayed exactly when a code is retained; every
    call in flight and every request issued has its fields filled in. *)
Lemma fields_invariant_step e p :
  (Landing.student_form p = true ↔ Landing.currentCode p ≠ EmptyString)
  ∧ (∀ r, r ∈ Landing.awaiting p → filled r)
  ∧ (∀ n c, PostRegister n c ∈ Landing.awaiting p →
            Landing.student_form p = true)
  ∧ Forall filled_io (Landing.log p) →
  Landing.enabled e p = true →
  (Landing.student_form (Landing.handle e p) = true
   ↔ Landing.currentCode (Landing.handle e p) ≠ EmptyString)
  ∧ (∀ r, r ∈ Landing.awaiting (Landing.handle e p) → filled r)
  ∧ (∀ n c, PostRegister n c ∈ Landing.awaiting (Landing.handle e p) →
            Landing.student_form (Landing.handle e p) = true)
  ∧ Forall filled_io (Landing.log (Landing.handle e p)).
Proof.
  intros (H1 & H2 & H3 & H4) Hen.
  apply andb_true_iff in Hen as [_ Hen].
  destruct e as [code cls name| | | | |i reply]; try done.
  - (* checkCode *)
    unfold Landing.handle, Landing.checkCode.
    destruct (JS.falsy _) eqn:Hf; [done|]. simpl.
    apply String.eqb_neq in Hf.
    split_and!; [done| | |].
    + intros r [Hr|Hr]%elem_of_app; [by apply H2|].
      apply list_elem_of_singleton in Hr. by subst.
    + intros n c [Hr|Hr]%elem_of_app; [by eapply H3|].
      by apply list_elem_of_singleton in Hr.
    + apply Forall_app. split; [done|]. by apply Forall_singleton.
  - (* joinQuiz *)
    unfold Landing.handle, Landing.joinQuiz.
    destruct (JS.falsy (Landing.classSel p)) eqn:Hc; [done|].
    destruct (JS.falsy (Landing.nameSel p)) eqn:Hn; [done|]. simpl.
    apply String.eqb_neq in Hc, Hn.
    split_and!; [done| | |].
    + intros r [Hr|Hr]%elem_of_app; [by apply H2|].
      apply list_elem_of_singleton in Hr. by subst.
    + done.
    + apply Forall_app. split; [done|]. by apply Forall_singleton.
  - (* a call settles *)
    unfold Landing.handle.
    destruct (Landing.awaiting p !! i) as [r|] eqn:Hr; [|done].
    assert (r ∈ Landing.awaiting p) as Hin by (by eapply list_elem_of_lookup_2).
    pose proof (H2 r Hin) as Hfilled.
    assert (∀ r', r' ∈ delete i (Landing.awaiting p) → filled r') as H2'.
    { intros r' Hr'%list_elem_of_delete_inv. by apply H2. }
    assert (∀ n c, PostRegister n c ∈ delete i (Landing.awaiting p) →
                   Landing.student_form p = true) as H3'.
    { intros n c Hr'%list_elem_of_delete_inv. by eapply H3. }
    assert (Forall filled_io
              (Landing.log p ++ [Landing.Back r reply])%list) as H4'.
    { apply Forall_app. split; [done|]. by apply Forall_singleton. }
    destruct r as [|n c|code|code|q|q a|q st ev]; try done;
      destruct reply as [data|]; landing_unfold; try done.
    + (* the answer of [registerName] *)
      destruct (ok data); simpl; [|done].
      split_and!; [done| | |].
      * intros r [Hr'|Hr']%elem_of_app; [by apply H2'|].
        apply list_elem_of_singleton in Hr'. subst. simpl.
        apply H1. by eapply H3.
      * intros n' c' [Hr'|Hr']%elem_of_app; [by eapply H3'|].
        by apply list_elem_of_singleton in Hr'.
      * apply Forall_app. split; [done|]. apply Forall_singleton. simpl.
        apply H1. by eapply H3.
    + (* the answer of the gate *)
      destruct (ok data); simpl; [|done]. by split_and!.
    + (* the answer of the join endpoint *)
      by destruct (ok data).
Qed.

Lemma fields_invariant_initial (c0 t0 : bool) (code cls name : string) :
  let p := Landing.initial c0 t0 code cls name in
  (Landing.student_form p = true ↔ Landing.currentCode p ≠ EmptyString)
  ∧ (∀ r, r ∈ Landing.awaiting p → filled r)
  ∧ (∀ n c, PostRegister n c ∈ Landing.awaiting p →
            Landing.student_form p = true)
  ∧ Forall filled_io (Landing.log p).
Proof.
  simpl. split_and!; [done| | |done].
  - by intros r ?%elem_of_nil.
  - by intros n c ?%elem_of_nil.
Qed.

Lemma joins_follow_snoc_other l (x : Landing.Io) :
  joins_follow_registration l →
  (∀ c, x ≠ Landing.Out (PostJoin c)) →
  joins_follow_registration (l ++ [x]).
Proof.
  intros Hl Hx i c Hi. apply lookup_snoc_Some in Hi as [[Hlt Hi]|[-> ->]].
  - destruct (Hl i c Hi) as (j & io & -> & Hj & Hio).
    exists j, io. split_and!; [done| |done]. by apply lookup_app_l_Some.
  - by destruct (Hx c).
Qed.

Lemma joins_follow_snoc_join l (io : Landing.Io) (c : string) :
  joins_follow_registration (l ++ [io]) →
  registered io →
  joins_follow_registration ((l ++ [io]) ++ [Landing.Out (PostJoin c)]).
Proof.
  intros Hl Hio i c' Hi. apply lookup_snoc_Some in Hi as [[Hlt Hi]|[-> _]].
  - destruct (Hl i c' Hi) as (j & io' & -> & Hj & Hio').
    exists j, io'. split_and!; [done| |done]. by apply lookup_app_l_Some.
  - exists (length l), io. split_and!; [|  |done].
    + rewrite length_app. simpl. lia.
    + apply lookup_app_l_Some. by apply list_lookup_middle.
Qed.

Lemma joins_follow_step e p :
  joins_follow_registration (Landing.log p) →
  joins_follow_registration (Landing.log (Landing.handle e p)).
Proof.
  intros Hl. destruct e as [code cls name| | | | |i reply]; try done.
  - unfold Landing.handle, Landing.checkCode.
    destruct (JS.falsy _); [done|]. simpl.
    by apply joins_follow_snoc_other.
  - unfold Landing.handle, Landing.joinQuiz.
    repeat (destruct (JS.falsy _); [done|]). simpl.
    by apply joins_follow_snoc_other.
  - unfold Landing.handle.
    destruct (Landing.awaiting p !! i) as [r|] eqn:Hr; [|done].
    assert (joins_follow_registration
              (Landing.log p ++ [Landing.Back r reply])%list) as Hl'.
    { by apply joins_follow_snoc_other. }
    destruct r as [|n c|code|code|q|q a|q st ev]; try done;
      destruct reply as [data|]; landing_unfold; try done.
    + destruct (ok data) eqn:Hok; simpl; [|done].
      by apply joins_follow_snoc_join.
    + by destruct (ok data).
    + by destruct (ok data).
Qed.

Lemma rejection_step (i : nat) p :
  landing_view (Landing.handle (Landing.Settle i Rejected) p) = landing_view p
  ∧ List.filter is_out
      (Landing.log (Landing.handle (Landing.Settle i Rejected) p))
    = List.filter is_out (Landing.log p).
Proof.
  unfold Landing.handle.
  destruct (Landing.awaiting p !! i) as [r|]; [|done].
  destruct r; landing_unfold; rewrite List.filter_app; simpl;
    by rewrite app_nil_r.
Qed.

End LandingInvariants.

(** X21.  On every run of the landing page, no request ever leaves with an
    empty field: a check request carries a code that is not empty, a
    register request a name and a class that are not empty, and a join
    request a code that is not empty. *)
Theorem requests_have_their_fields
    (c0 t0 : bool) (code cls name : string) (es : list Landing.Event)
    (p : Landing.Page) :
  Landing.run es (Landing.initial c0 t0 code cls name) = Some p →
  Forall filled_io (Landing.log p).
Proof.
  intros Hrun.
  eapply (landing_run_invariant _ es _ p fields_invariant_step) in Hrun.
  - by destruct Hrun as (_ & _ & _ & ?).
  - apply fields_invariant_initial.
Qed.

Lemma requests_have_their_fields_sample :
  Forall filled_io
    [Landing.Out (PostCheckCode "ABC123");
     Landing.Back (PostCheckCode "ABC123") (Fulfilled SampleLanding.yes);
     Landing.Out (PostRegister "Nguyen An" "10A")].
Proof.
  destruct (Landing.run
              [Landing.Input " ABC123 " EmptyString EmptyString;
               Landing.ClickCheck;
               Landing.Settle 0 (Fulfilled SampleLanding.yes);
               Landing.Input " ABC123 " "10A" "Nguyen An";
               Landing.ClickJoin]
              (Landing.initial true false EmptyString EmptyString
                 EmptyString)) as [p|] eqn:Hrun; [|by vm_compute in Hrun].
  pose proof (requests_have_their_fields true false EmptyString EmptyString
                EmptyString _ p Hrun) as H.
  vm_compute in Hrun. injection Hrun as <-. exact H.
Defined.

(** X22.  On every run of the landing page, each request to the join
    endpoint is issued right after the answer to a registration that the
    server accepted, with nothing in between. *)
Theorem join_follows_accepted_registration
    (c0 t0 : bool) (code cls name : string) (es : list Landing.Event)
    (p : Landing.Page) :
  Landing.run es (Landing.initial c0 t0 code cls name) = Some p →
  joins_follow_registration (Landing.log p).
Proof.
  apply (landing_run_invariant
           (λ p, joins_follow_registration (Landing.log p))).
  - intros e q Hq _. by apply joins_follow_step.
  - by intros i c ?.
Qed.

Lemma join_follows_accepted_registration_sample :
  ∃ p, Landing.run
         [Landing.Input "ABC123" "10A" "Nguyen An";
          Landing.ClickCheck;
          Landing.Settle 0 (Fulfilled SampleLanding.yes);
          Landing.ClickJoin;
          Landing.Settle 0 (Fulfilled SampleLanding.yes)]
         (Landing.initial true false EmptyString EmptyString EmptyString)
       = Some p
       ∧ Landing.log p !! 4 = Some (Landing.Out (PostJoin "ABC123"))
       ∧ joins_follow_registration (Landing.log p).
Proof.
  destruct (Landing.run
              [Landing.Input "ABC123" "10A" "Nguyen An";
               Landing.ClickCheck;
               Landing.Settle 0 (Fulfilled SampleLanding.yes);
               Landing.ClickJoin;
               Landing.Settle 0 (Fulfilled SampleLanding.yes)]
              (Landing.initial true false EmptyString EmptyString
                 EmptyString)) as [p|] eqn:Hrun; [|by vm_compute in Hrun].
  exists p. split; [done|]. split.
  - vm_compute in Hrun. injection Hrun as <-. reflexivity.
  - exact (join_follows_accepted_registration true false EmptyString
             EmptyString EmptyString _ p Hrun).
Defined.

(** X23.  On every run of the landing page, the student form is displayed
    exactly when a code is retained: [currentCode] is empty until a check
    succeeds and never empty afterwards. *)
Theorem student_form_iff_code_retained
    (c0 t0 : bool) (code cls name : string) (es : list Landing.Event)
    (p : Landing.Page) :
  Landing.run es (Landing.initial c0 t0 code cls name) = Some p →
  Landing.student_form p = true ↔ Landing.currentCode p ≠ EmptyString.
Proof.
  intros Hrun.
  eapply (landing_run_invariant _ es _ p fields_invariant_step) in Hrun.
  - by destruct Hrun as (? & _).
  - apply fields_invariant_initial.
Qed.

Lemma student_form_iff_code_retained_sample :
  Landing.student_form SampleLanding.verified = true
  ↔ Landing.currentCode SampleLanding.verified ≠ EmptyString.
Proof.
  apply (student_form_iff_code_retained true false EmptyString EmptyString
           EmptyString
           [Landing.Input "ABC123" EmptyString EmptyString;
            Landing.ClickCheck;
            Landing.Settle 0
              (Fulfilled {| ok := true; error := None; quiz_id := None |})]).
  by vm_compute.
Defined.

(** X24.  Network failures on the landing page are silent: along a run in
    which every event is the rejection of a call in flight, the two status
    texts, the retained code, the forms and the location stay as they were,
    and no request is issued again. *)
Theorem rejections_show_nothing
    (es : list Landing.Event) (p p' : Landing.Page) :
  forallb is_rejection es = true →
  Landing.run es p = Some p' →
  landing_view p' = landing_view p
  ∧ List.filter is_out (Landing.log p') = List.filter is_out (Landing.log p).
Proof.
  revert p. induction es as [|e es IH]; intros p Hes Hrun.
  { by simplify_eq/=. }
  simpl in Hes. apply andb_true_iff in Hes as [He Hes].
  simpl in Hrun. destruct (Landing.enabled e p); [|done].
  destruct (IH _ Hes Hrun) as [-> ->].
  destruct e as [| | | | |i [|]]; try done. apply rejection_step.
Qed.

Lemma rejections_show_nothing_sample :
  ∃ p', Landing.run [Landing.Settle 0 Rejected]
          (Landing.handle Landing.ClickJoin SampleLanding.ready) = Some p'
        ∧ Landing.joinStatus p' = EmptyString
        ∧ Landing.uncaught p' = 1.
Proof.
  destruct (Landing.run [Landing.Settle 0 Rejected]
              (Landing.handle Landing.ClickJoin SampleLanding.ready))
    as [p'|] eqn:Hrun; [|by vm_compute in Hrun].
  exists p'. split; [done|].
  pose proof (rejections_show_nothing [Landing.Settle 0 Rejected] _ p'
                eq_refl Hrun) as [Hview _].
  split.
  - apply (f_equal (λ v, v.1.1.1.1.2)) in Hview. exact Hview.
  - vm_compute in Hrun. injection Hrun as <-. reflexivity.
Defined.

(** ** The roster *)

Section RosterSort.

Context {A : Type} (before : A → A → bool).
Hypothesis before_total : ∀ a b, before a b = true ∨ before b a = true.

Lemma insert_Permutation (x : A) (l : list A) :
  Roster.insert before x l ≡ₚ x :: l.
Proof.
  induction l as [|y t IH]; [done|]. simpl.
  destruct (before x y); [done|]. rewrite IH. apply Permutation_swap.
Qed.

Lemma sort_Permutation (l : list A) : Roster.sort before l ≡ₚ l.
Proof.
  induction l as [|x l IH]; [done|]. simpl.
  by rewrite insert_Permutation, IH.
Qed.

Lemma insert_HdRel (x a : A) (l : list A) :
  before a x = true →
  HdRel (λ a b, before a b = true) a l →
  HdRel (λ a b, before a b = true) a (Roster.insert before x l).
Proof.
  intros Hax Hl. destruct l as [|y t]; simpl.
  - by constructor.
  - destruct (before x y); constructor; [done|].
    by apply HdRel_inv in Hl.
Qed.

Lemma insert_Sorted (x : A) (l : list A) :
  Sorted (λ a b, before a b = true) l →
  Sorted (λ a b, before a b = true) (Roster.insert before x l).
Proof.
  induction l as [|y t IH]; intros Hl; simpl.
  - by repeat constructor.
  - destruct (before x y) eqn:Hxy.
    + constructor; [done|]. by constructor.
    + apply Sorted_inv in Hl as [Ht Hy]. constructor; [by apply IH|].
      apply insert_HdRel; [|done].
      by destruct (before_total x y) as [Hb|Hb]; [rewrite Hb in Hxy|].
Qed.

Lemma sort_Sorted (l : list A) :
  Sorted (λ a b, before a b = true) (Roster.sort before l).
Proof.
  induction l as [|x l IH]; [constructor|]. simpl. by apply insert_Sorted.
Qed.

End RosterSort.

(** X25.  When the roster arrives, [loadClasses] lists the placeholder
    followed by one option per class, in the order of the default sort, and
    leaves the name selector with its placeholder alone; nothing is selected
    in either. *)
Theorem loadClasses_lists_the_classes
    (before : string → string → bool) (localeCompare : string → string → Z)
    (p : Roster.Page) (data : JS.object (list Roster.Student)) :
  (∀ a b, before a b = true ∨ before b a = true) →
  Roster.awaiting p = [] →
  ∃ p' l,
    Roster.run before localeCompare [Roster.Settle 0 (Fulfilled data)]
      (Roster.loadClasses p) = Some p'
    ∧ Roster.class_options p'
      = Roster.class_placeholder :: map Roster.option_of l
    ∧ Sorted (λ a b, before a b = true) l
    ∧ l ≡ₚ JS.keys data
    ∧ Roster.class_value p' = EmptyString
    ∧ Roster.name_options p' = [Roster.name_placeholder]
    ∧ Roster.name_value p' = EmptyString
    ∧ Roster.fetched p' = S (Roster.fetched p).
Proof.
  intros Htotal Hawait.
  exists (Roster.handle before localeCompare
            (Roster.Settle 0 (Fulfilled data)) (Roster.loadClasses p)),
    (Roster.sort before (JS.keys data)).
  split_and!.
  - simpl. by rewrite Hawait.
  - simpl. by rewrite Hawait.
  - by apply sort_Sorted.
  - apply sort_Permutation.
  - simpl. by rewrite Hawait.
  - simpl. by rewrite Hawait.
  - simpl. by rewrite Hawait.
  - simpl. by rewrite Hawait.
Qed.

Lemma loadClasses_lists_the_classes_sample :
  ∃ p', Roster.run SampleRoster.before SampleRoster.compare
          [Roster.Settle 0 (Fulfilled SampleRoster.classes)]
          (Roster.loadClasses SampleRoster.page) = Some p'
        ∧ Roster.class_options p'
          = [Roster.class_placeholder; ("10A", "10A"); ("10B", "10B")].
Proof.
  destruct (loadClasses_lists_the_classes SampleRoster.before
              SampleRoster.compare SampleRoster.page SampleRoster.classes
              String.leb_total eq_refl) as (p' & l & Hrun & _).
  exists p'. split; [exact Hrun|].
  vm_compute in Hrun. injection Hrun as <-. reflexivity.
Defined.

(** X26.  When the student picks a class and the roster arrives, the name
    selector lists its placeholder followed by one option per student of
    that class, in the order of [localeCompare] on the names; a class that
    the roster does not have gives the placeholder alone.  No name is
    selected. *)
Theorem class_change_lists_the_names
    (before : string → string → bool) (localeCompare : string → string → Z)
    (p : Roster.Page) (c : string) (data : JS.object (list Roster.Student)) :
  (∀ a b, (localeCompare a b <=? 0)%Z = true
          ∨ (localeCompare b a <=? 0)%Z = true) →
  Roster.awaiting p = [] →
  c ∈ map fst (Roster.class_options p) →
  c ≠ EmptyString →
  ∃ p' l,
    Roster.run before localeCompare
      [Roster.SelectClass c; Roster.Settle 0 (Fulfilled data)] p = Some p'
    ∧ Roster.name_options p'
      = Roster.name_placeholder
        :: map (λ s, Roster.option_of (Roster.student_name s)) l
    ∧ Sorted (λ a b, Roster.by_name localeCompare a b = true) l
    ∧ l ≡ₚ default [] (JS.get c data)
    ∧ Roster.name_value p' = EmptyString
    ∧ Roster.class_value p' = c.
Proof.
  intros Htotal Hawait Hc Hne.
  assert (JS.falsy c = false) as Hf by (by apply String.eqb_neq).
  exists (Roster.handle before localeCompare
            (Roster.Settle 0 (Fulfilled data))
            (Roster.handle before localeCompare (Roster.SelectClass c) p)),
    (Roster.sort (Roster.by_name localeCompare) (default [] (JS.get c data))).
  assert (Roster.handle before localeCompare (Roster.SelectClass c) p
          = Roster.fetch (Roster.NamesOf c)
              (Roster.reset_names (Roster.select c p))) as Hpick.
  { unfold Roster.handle, Roster.pick_class, Roster.onClassChange. simpl.
    by rewrite Hf. }
  split_and!.
  - cbn [Roster.run].
    assert (Roster.enabled (Roster.SelectClass c) p = true) as ->.
    { by apply bool_decide_eq_true_2. }
    rewrite Hpick. simpl. by rewrite Hawait.
  - rewrite Hpick. simpl. by rewrite Hawait.
  - apply sort_Sorted. intros a b. apply Htotal.
  - apply sort_Permutation.
  - rewrite Hpick. simpl. by rewrite Hawait.
  - rewrite Hpick. simpl. by rewrite Hawait.
Qed.

Lemma compare_total (a b : string) :
  (SampleRoster.compare a b <=? 0)%Z = true
  ∨ (SampleRoster.compare b a <=? 0)%Z = true.
Proof.
  unfold SampleRoster.compare. rewrite (String.compare_antisym a b).
  by destruct (String.compare b a); [left|right|left].
Qed.

Lemma class_change_lists_the_names_sample :
  ∃ p', Roster.run SampleRoster.before SampleRoster.compare
          [Roster.Settle 0 (Fulfilled SampleRoster.classes);
           Roster.SelectClass "10A";
           Roster.Settle 0 (Fulfilled SampleRoster.classes)]
          (Roster.loadClasses SampleRoster.page) = Some p'
        ∧ Roster.name_options p'
          = [Roster.name_placeholder; ("Le Chi", "Le Chi");
             ("Nguyen An", "Nguyen An")].
Proof.
  destruct (Roster.run SampleRoster.before SampleRoster.compare
              [Roster.Settle 0 (Fulfilled SampleRoster.classes)]
              (Roster.loadClasses SampleRoster.page)) as [p1|] eqn:H1;
    [|by vm_compute in H1].
  destruct (class_change_lists_the_names SampleRoster.before
              SampleRoster.compare p1 "10A" SampleRoster.classes
              compare_total) as (p' & l & Hrun & _).
  - vm_compute in H1. by injection H1 as <-.
  - vm_compute in H1. injection H1 as <-.
    by apply (bool_decide_unpack (_ ∈ _)).
  - done.
  - exists p'. split.
    + change (Roster.run SampleRoster.before SampleRoster.compare
                ([Roster.Settle 0 (Fulfilled SampleRoster.classes)]
                 ++ [Roster.SelectClass "10A";
                     Roster.Settle 0 (Fulfilled SampleRoster.classes)])%list
                (Roster.loadClasses SampleRoster.page) = Some p').
      vm_compute in H1. injection H1 as <-. exact Hrun.
    + vm_compute in H1. injection H1 as <-.
      vm_compute in Hrun. injection Hrun as <-. reflexivity.
Defined.

(** X27.  Picking a class empties the name selector at once, whatever the
    class: only the placeholder is listed and no name is selected until the
    roster arrives.  Picking the placeholder of the class selector issues no
    request; picking a class issues exactly one. *)
Theorem class_change_clears_the_names
    (before : string → string → bool) (localeCompare : string → string → Z)
    (p : Roster.Page) (c : string) :
  let p' := Roster.handle before localeCompare (Roster.SelectClass c) p in
  Roster.name_options p' = [Roster.name_placeholder]
  ∧ Roster.name_value p' = EmptyString
  ∧ Roster.class_value p' = c
  ∧ (c = EmptyString →
     Roster.fetched p' = Roster.fetched p
     ∧ Roster.awaiting p' = Roster.awaiting p)
  ∧ (c ≠ EmptyString →
     Roster.fetched p' = S (Roster.fetched p)
     ∧ Roster.awaiting p' = (Roster.awaiting p ++ [Roster.NamesOf c])%list).
Proof.
  unfold Roster.handle, Roster.pick_class, Roster.onClassChange. simpl.
  destruct (String.eqb_spec c EmptyString) as [->|Hc].
  - simpl. by split_and!.
  - unfold JS.falsy. pose proof Hc as Hc'. apply String.eqb_neq in Hc'.
    rewrite Hc'. simpl. by split_and!.
Qed.

Lemma class_change_clears_the_names_sample :
  Roster.fetched
    (Roster.handle SampleRoster.before SampleRoster.compare
       (Roster.SelectClass EmptyString) SampleRoster.page) = 0
  ∧ Roster.fetched
      (Roster.handle SampleRoster.before SampleRoster.compare
         (Roster.SelectClass "10A") SampleRoster.page) = 1.
Proof.
  split.
  - apply (class_change_clears_the_names SampleRoster.before
             SampleRoster.compare SampleRoster.page EmptyString).
    reflexivity.
  - apply (class_change_clears_the_names SampleRoster.before
             SampleRoster.compare SampleRoster.page "10A").
    discriminate.
Defined.

(** X28.  Nothing ties an answer of the roster to the class selected when it
    arrives.  When the student picks a class and then another before the
    first answer is back, and the two answers arrive in that order, the name
    selector lists the students of both classes, those of the first class
    before those of the second, although the second class is the selected
    one. *)
Theorem names_of_two_classes_pile_up
    (before : string → string → bool) (localeCompare : string → string → Z)
    (p : Roster.Page) (c1 c2 : string)
    (d1 d2 : JS.object (list Roster.Student)) :
  Roster.awaiting p = [] →
  c1 ∈ map fst (Roster.class_options p) →
  c2 ∈ map fst (Roster.class_options p) →
  c1 ≠ EmptyString →
  c2 ≠ EmptyString →
  ∃ p',
    Roster.run before localeCompare
      [Roster.SelectClass c1; Roster.SelectClass c2;
       Roster.Settle 0 (Fulfilled d1); Roster.Settle 0 (Fulfilled d2)] p
    = Some p'
    ∧ Roster.class_value p' = c2
    ∧ Roster.name_options p'
      = (Roster.name_placeholder
         :: map (λ s, Roster.option_of (Roster.student_name s))
              (Roster.sort (Roster.by_name localeCompare)
                 (default [] (JS.get c1 d1)))
         ++ map (λ s, Roster.option_of (Roster.student_name s))
              (Roster.sort (Roster.by_name localeCompare)
                 (default [] (JS.get c2 d2))))%list.
Proof.
  intros Hawait H1 H2 Hc1 Hc2.
  assert (JS.falsy c1 = false) as Hf1 by (by apply String.eqb_neq).
  assert (JS.falsy c2 = false) as Hf2 by (by apply String.eqb_neq).
  destruct p as [cv co nv no aw f u]. simpl in Hawait, H1, H2. subst aw.
  cbn [Roster.run].
  unfold Roster.enabled at 1. unfold Roster.can_pick. simpl.
  rewrite (bool_decide_eq_true_2 _ H1).
  unfold Roster.pick_class, Roster.onClassChange. simpl. rewrite Hf1. simpl.
  unfold Roster.can_pick. simpl. rewrite (bool_decide_eq_true_2 _ H2).
  rewrite Hf2. simpl.
  eexists. split; [done|]. by split.
Qed.

Lemma names_of_two_classes_pile_up_sample :
  ∃ p', Roster.run SampleRoster.before SampleRoster.compare
          [Roster.SelectClass "10A"; Roster.SelectClass "10B";
           Roster.Settle 0 (Fulfilled SampleRoster.classes);
           Roster.Settle 0 (Fulfilled SampleRoster.classes)]
          {| Roster.class_value := EmptyString;
             Roster.class_options :=
               [Roster.class_placeholder; ("10A", "10A"); ("10B", "10B")];
             Roster.name_value := EmptyString;
             Roster.name_options := [Roster.name_placeholder];
             Roster.awaiting := []; Roster.fetched := 1;
             Roster.uncaught := 0 |} = Some p'
        ∧ Roster.class_value p' = "10B"
        ∧ Roster.name_options p'
          = [Roster.name_placeholder; ("Le Chi", "Le Chi");
             ("Nguyen An", "Nguyen An"); ("Tran Binh", "Tran Binh")].
Proof.
  destruct (names_of_two_classes_pile_up SampleRoster.before
              SampleRoster.compare
              {| Roster.class_value := EmptyString;
                 Roster.class_options :=
                   [Roster.class_placeholder; ("10A", "10A"); ("10B", "10B")];
                 Roster.name_value := EmptyString;
                 Roster.name_options := [Roster.name_placeholder];
                 Roster.awaiting := []; Roster.fetched := 1;
                 Roster.uncaught := 0 |}
              "10A" "10B" SampleRoster.classes SampleRoster.classes)
    as (p' & Hrun & Hc & Hn).
  - reflexivity.
  - by apply (bool_decide_unpack (_ ∈ _)).
  - by apply (bool_decide_unpack (_ ∈ _)).
  - discriminate.
  - discriminate.
  - exists p'. split; [exact Hrun|]. split; [exact Hc|]. exact Hn.
Defined.
